(** * Alram/app.py: a digital clock with one alarm

    A shallow embedding of the alarm logic of [src/Alram/app.py]: the
    process-wide alarm variables, the widgets the handlers touch, and the
    handlers [set_alarm], [check_alarm], [play_alarm_sound], [stop_alarm]
    and [snooze], together with the parts of Python's [datetime] and
    [_strptime] modules they call.

    Conventions.
    - The wall clock, the text of the entry widget, the presence of the
      sound file and the outcome of [playsound] are inputs of the handlers.
    - Text is [string]: sequences of characters with code points below 256.
      On those, the regular expression class [\d] is exactly ['0'..'9'].
    - Console output ([print]) and the clock label are not part of the
      modelled state. *)

From Stdlib Require Import ZArith List String Ascii DecimalString Bool Lia.
Import ListNotations.
Local Open Scope string_scope.
Local Open Scope Z_scope.

(** ** Python's [datetime] module, as far as the program uses it *)

Module Datetime.

(** [datetime._MAXORDINAL]: the ordinal of 9999-12-31. *)
Definition MAXORDINAL : Z := 3652059.

(** A [date] is represented by its proleptic Gregorian ordinal
    (0001-01-01 is day 1), which is how [date] arithmetic is defined. *)
Record date := mkdate { toordinal : Z }.

Record time := mktime {
  t_hour : Z;
  t_minute : Z;
  t_second : Z;
  t_microsecond : Z
}.

Record datetime := mkdatetime {
  ordinal : Z;
  hour : Z;
  minute : Z;
  second : Z;
  microsecond : Z
}.

Record timedelta := mktimedelta {
  days : Z;
  seconds : Z;
  microseconds : Z
}.

Definition valid_time (t : time) : Prop :=
  0 <= t_hour t < 24 /\ 0 <= t_minute t < 60 /\
  0 <= t_second t < 60 /\ 0 <= t_microsecond t < 1000000.

Definition valid_datetime (d : datetime) : Prop :=
  1 <= ordinal d <= MAXORDINAL /\
  0 <= hour d < 24 /\ 0 <= minute d < 60 /\
  0 <= second d < 60 /\ 0 <= microsecond d < 1000000.

(** [datetime.date()], [datetime.time()] and [datetime.combine]. *)
Definition date_of (d : datetime) : date := mkdate (ordinal d).

Definition time_of (d : datetime) : time :=
  mktime (hour d) (minute d) (second d) (microsecond d).

Definition combine (d : date) (t : time) : datetime :=
  mkdatetime (toordinal d) (t_hour t) (t_minute t) (t_second t) (t_microsecond t).

(** Comparison of naive datetimes: lexicographic on the fields. *)
Definition lex (c1 c2 : comparison) : comparison :=
  match c1 with Eq => c2 | _ => c1 end.

Definition cmp (a b : datetime) : comparison :=
  lex (ordinal a ?= ordinal b)
 (lex (hour a ?= hour b)
 (lex (minute a ?= minute b)
 (lex (second a ?= second b)
      (microsecond a ?= microsecond b)))).

(** [a <= b] *)
Definition le (a b : datetime) : bool :=
  match cmp a b with Gt => false | _ => true end.

(** [a >= b] *)
Definition ge (a b : datetime) : bool :=
  match cmp a b with Lt => false | _ => true end.

(** The [timedelta] constructor: the arguments are summed and normalised so
    that [0 <= seconds < 86400] and [0 <= microseconds < 1000000]. *)
Definition timedelta_of (d h m s us : Z) : timedelta :=
  let s1 := h * 3600 + m * 60 + s + us / 1000000 in
  mktimedelta (d + s1 / 86400) (s1 mod 86400) (us mod 1000000).

Definition td_add (a b : timedelta) : timedelta :=
  timedelta_of (days a + days b) 0 0 (seconds a + seconds b)
               (microseconds a + microseconds b).

(** [datetime.__add__]: [None] stands for [OverflowError]. *)
Definition add (a : datetime) (td : timedelta) : option datetime :=
  let delta :=
    td_add (timedelta_of (ordinal a) (hour a) (minute a) (second a) (microsecond a)) td in
  let hr := seconds delta / 3600 in
  let rem := seconds delta mod 3600 in
  let mi := rem / 60 in
  let se := rem mod 60 in
  if (0 <? days delta) && (days delta <=? MAXORDINAL)
  then Some (mkdatetime (days delta) hr mi se (microseconds delta))
  else None.

(** [strftime('%H:%M:%S')]: three zero-padded two-digit fields. *)
Definition digit_char (n : Z) : ascii :=
  ascii_of_nat (48 + Z.to_nat n).

Definition pad2 (n : Z) : string :=
  String (digit_char (n / 10)) (String (digit_char (n mod 10)) EmptyString).

Definition strftime_HMS (d : datetime) : string :=
  pad2 (hour d) ++ ":" ++ pad2 (minute d) ++ ":" ++ pad2 (second d).

(** [str] of an [int], as an f-string renders it. *)
Definition str_int (n : Z) : string := NilZero.string_of_int (Z.to_int n).

(** Microseconds elapsed since the start of day 0. *)
Definition instant (d : datetime) : Z :=
  ((ordinal d * 86400 + hour d * 3600 + minute d * 60 + second d) * 1000000)
  + microsecond d.

(** Length of a [timedelta] in microseconds. *)
Definition span (td : timedelta) : Z :=
  (days td * 86400 + seconds td) * 1000000 + microseconds td.

(** A [timedelta] as its constructor leaves it. *)
Definition normalized (td : timedelta) : Prop :=
  0 <= seconds td < 86400 /\ 0 <= microseconds td < 1000000.

End Datetime.

(** ** The regular expression behind [strptime(s, "%H:%M:%S")] *)

Module Strptime.

Import Datetime.

(** Star-free regular expressions with named groups. *)
Inductive re :=
| Chr (c : ascii)
| Rng (lo hi : ascii)
| Seq (r1 r2 : re)
| Alt (r1 r2 : re)
| Group (name : string) (r : re).

Definition caps := list (string * string).

Definition in_range (lo hi c : ascii) : bool :=
  (nat_of_ascii lo <=? nat_of_ascii c)%nat && (nat_of_ascii c <=? nat_of_ascii hi)%nat.

(** How many characters of [s] were consumed when [rest] is left over. *)
Definition prefix_len (s rest : string) : nat :=
  (String.length s - String.length rest)%nat.

(** Backtracking matcher in continuation-passing style: alternatives are
    tried left to right, and a later failure of the continuation falls back
    to the next alternative, as in Python's [re]. *)
Fixpoint rmatch {A : Type} (r : re) (s : string) (cs : caps)
         (k : string -> caps -> option A) : option A :=
  match r with
  | Chr c =>
      match s with
      | String c' s' => if Ascii.eqb c c' then k s' cs else None
      | EmptyString => None
      end
  | Rng lo hi =>
      match s with
      | String c' s' => if in_range lo hi c' then k s' cs else None
      | EmptyString => None
      end
  | Seq r1 r2 => rmatch r1 s cs (fun s1 cs1 => rmatch r2 s1 cs1 k)
  | Alt r1 r2 =>
      match rmatch r1 s cs k with
      | Some x => Some x
      | None => rmatch r2 s cs k
      end
  | Group name r1 =>
      rmatch r1 s cs
        (fun s1 cs1 => k s1 ((name, substring 0 (prefix_len s s1) s) :: cs1))
  end.

Definition digit : re := Rng "0" "9".

(** [(?P<H>2[0-3]|[0-1]\d|\d)] *)
Definition re_H : re :=
  Group "H" (Alt (Seq (Chr "2") (Rng "0" "3"))
            (Alt (Seq (Rng "0" "1") digit) digit)).

(** [(?P<M>[0-5]\d|\d)] *)
Definition re_M : re :=
  Group "M" (Alt (Seq (Rng "0" "5") digit) digit).

(** [(?P<S>6[0-1]|[0-5]\d|\d)] *)
Definition re_S : re :=
  Group "S" (Alt (Seq (Chr "6") (Rng "0" "1"))
            (Alt (Seq (Rng "0" "5") digit) digit)).

(** The pattern [_TimeRE] compiles for the format ["%H:%M:%S"]. *)
Definition format_regex : re :=
  Seq re_H (Seq (Chr ":") (Seq re_M (Seq (Chr ":") re_S))).

Fixpoint lookup (name : string) (cs : caps) : option string :=
  match cs with
  | [] => None
  | (n, v) :: cs' => if String.eqb n name then Some v else lookup name cs'
  end.

(** [int] on a string of decimal digits. *)
Fixpoint int_acc (acc : Z) (s : string) : Z :=
  match s with
  | EmptyString => acc
  | String c s' => int_acc (10 * acc + (Z.of_nat (nat_of_ascii c) - 48)) s'
  end.

Definition int (s : string) : Z := int_acc 0 s.

Definition group_int (name : string) (cs : caps) : Z :=
  match lookup name cs with Some v => int v | None => 0 end.

(** 1900-01-01, the date [strptime] fills in when the format has none. *)
Definition ordinal_1900_01_01 : Z := 693596.

(** [datetime.strptime(s, "%H:%M:%S")]; [None] stands for [ValueError]:
    no match at the start of [s], unconverted data after the match, or a
    field the [datetime] constructor refuses (a second of 60 or 61). *)
Definition strptime (s : string) : option datetime :=
  match rmatch format_regex s [] (fun rest cs => Some (rest, cs)) with
  | None => None
  | Some (rest, cs) =>
      if negb (String.eqb rest "") then None
      else
        let h := group_int "H" cs in
        let m := group_int "M" cs in
        let sec := group_int "S" cs in
        if (0 <=? h) && (h <=? 23) && (0 <=? m) && (m <=? 59)
           && (0 <=? sec) && (sec <=? 59)
        then Some (mkdatetime ordinal_1900_01_01 h m sec 0)
        else None
  end.

End Strptime.

Import Datetime.

(** ** Process state and the handler monad *)

(** The module-level variables of the program ([alarm_time],
    [alarm_triggered], [alarm_thread]) and the widgets its handlers write.
    A button is [true] while it is packed (visible).  [dialogs] records the
    message boxes shown, newest first.  [started] is a history variable:
    one entry per [Thread.start()], newest first, holding the value of
    [alarm_time] at that moment. *)
Record State := mkState {
  alarm_time : option datetime;
  alarm_triggered : bool;
  alarm_thread : option nat;
  status_label : string;
  snooze_button : bool;
  stop_button : bool;
  dialogs : list (string * string);
  started : list datetime
}.

Definition snooze_minutes : Z := 5.

(** The state after the module body has run, before the first tick. *)
Definition initial : State :=
  mkState None false None "" false false [] [].

(** Python exceptions the handlers can meet. *)
Inductive exn :=
| ValueError (msg : string)
| OverflowError (msg : string)
| OtherError (msg : string).

Definition exn_str (e : exn) : string :=
  match e with
  | ValueError m => m
  | OverflowError m => m
  | OtherError m => m
  end.

(** A handler reads and writes the state and either returns or raises.
    Writes made before an exception stay, as in Python. *)
Definition M (A : Type) : Type := State -> (exn + A) * State.

Definition ret {A} (x : A) : M A := fun st => (inr x, st).

Definition bind {A B} (m : M A) (f : A -> M B) : M B :=
  fun st =>
    match m st with
    | (inl e, st') => (inl e, st')
    | (inr x, st') => f x st'
    end.

Definition raise {A} (e : exn) : M A := fun st => (inl e, st).

(** [try: body except ...: handler] *)
Definition try_except {A} (body : M A) (handler : exn -> M A) : M A :=
  fun st =>
    match body st with
    | (inl e, st') => handler e st'
    | (inr x, st') => (inr x, st')
    end.

Definition gets {A} (f : State -> A) : M A := fun st => (inr (f st), st).

Definition modify (f : State -> State) : M unit := fun st => (inr tt, f st).

Declare Scope handler_scope.
Delimit Scope handler_scope with handler.
Notation "x <- m ;; k" := (bind m (fun x => k))
  (at level 61, m at next level, right associativity) : handler_scope.
Notation "m ;; k" := (bind m (fun _ => k))
  (at level 61, right associativity) : handler_scope.
Local Open Scope handler_scope.

(** Assignments to the globals and the widget operations. *)
Definition set_alarm_time (v : option datetime) : M unit :=
  modify (fun st => mkState v (alarm_triggered st) (alarm_thread st)
                            (status_label st) (snooze_button st) (stop_button st)
                            (dialogs st) (started st)).

Definition set_alarm_triggered (v : bool) : M unit :=
  modify (fun st => mkState (alarm_time st) v (alarm_thread st)
                            (status_label st) (snooze_button st) (stop_button st)
                            (dialogs st) (started st)).

(** [status_label.config(text=...)] *)
Definition status_config (text : string) : M unit :=
  modify (fun st => mkState (alarm_time st) (alarm_triggered st) (alarm_thread st)
                            text (snooze_button st) (stop_button st)
                            (dialogs st) (started st)).

(** [snooze_button.pack()] and [snooze_button.pack_forget()] *)
Definition snooze_pack (visible : bool) : M unit :=
  modify (fun st => mkState (alarm_time st) (alarm_triggered st) (alarm_thread st)
                            (status_label st) visible (stop_button st)
                            (dialogs st) (started st)).

(** [stop_button.pack()] and [stop_button.pack_forget()] *)
Definition stop_pack (visible : bool) : M unit :=
  modify (fun st => mkState (alarm_time st) (alarm_triggered st) (alarm_thread st)
                            (status_label st) (snooze_button st) visible
                            (dialogs st) (started st)).

(** [show_message_box(title, message)]: a modal dialog the user dismisses.
    Ticks that arrive while a dialog is open are steps of their own: no
    handler reads or writes an alarm variable before its dialog, so such a
    tick acts as one that came just before the handler. *)
Definition show_message_box (title message : string) : M unit :=
  modify (fun st => mkState (alarm_time st) (alarm_triggered st) (alarm_thread st)
                            (status_label st) (snooze_button st) (stop_button st)
                            ((title, message) :: dialogs st) (started st)).

(** [alarm_thread = Thread(target=play_alarm_sound); alarm_thread.start()]:
    the new thread is numbered by how many were started before it. *)
Definition start_thread (target : datetime) : M unit :=
  modify (fun st => mkState (alarm_time st) (alarm_triggered st)
                            (Some (List.length (started st)))
                            (status_label st) (snooze_button st) (stop_button st)
                            (dialogs st) (target :: started st)).

(** A library call that returns a value or raises. *)
Definition call {A} (r : option A) (e : exn) : M A :=
  match r with
  | Some x => ret x
  | None => raise e
  end.

(** ** The handlers *)

(** [set_alarm]: [entry] is the text of the entry widget, [now1] and [now2]
    are the two readings of [datetime.now()], in program order. *)
Definition set_alarm (entry : string) (now1 now2 : datetime) : M unit :=
  let alarm_time_str := entry in
  if String.eqb alarm_time_str "HH:MM:SS" then
    show_message_box "Input Error" "Please enter a valid alarm time (HH:MM:SS)."
  else
    try_except
      (parsed <- call (Strptime.strptime alarm_time_str)
                      (ValueError "time data does not match format") ;;
       let parsed_time := time_of parsed in
       let today := date_of now1 in
       let alarm_datetime_today := combine today parsed_time in
       (if le alarm_datetime_today now2 then
          t <- call (add alarm_datetime_today (timedelta_of 1 0 0 0 0))
                    (OverflowError "date value out of range") ;;
          set_alarm_time (Some t) ;;
          status_config ("Alarm set for tomorrow at " ++ strftime_HMS t)
        else
          set_alarm_time (Some alarm_datetime_today) ;;
          status_config ("Alarm set for today at " ++ strftime_HMS alarm_datetime_today)) ;;
       set_alarm_triggered false ;;
       snooze_pack false ;;
       stop_pack false)
      (fun e =>
         match e with
         | ValueError _ =>
             show_message_box "Input Error"
               "Invalid time format! Please use HH:MM:SS (e.g., 14:30:00)." ;;
             status_config "Invalid format! Use HH:MM:SS"
         | _ =>
             show_message_box "Error" ("An unexpected error occurred: " ++ exn_str e) ;;
             status_config ("Error setting alarm: " ++ exn_str e)
         end).

(** [check_alarm]: [now] is the reading of [datetime.now()]. *)
Definition check_alarm (now : datetime) : M unit :=
  at0 <- gets alarm_time ;;
  match at0 with
  | None => ret tt
  | Some t =>
      trig <- gets alarm_triggered ;;
      if negb trig && (hour now =? hour t) && (minute now =? minute t) then
        if ge now t then
          set_alarm_triggered true ;;
          status_config "ALARM! ALARM! ALARM!" ;;
          start_thread t ;;
          snooze_pack true ;;
          stop_pack true
        else ret tt
      else if trig && (hour now =? hour t) && (minute t <? minute now) then
        at1 <- gets alarm_time ;;
        match at1 with
        | Some _ =>
            status_config "" ;;
            snooze_pack false ;;
            stop_pack false ;;
            set_alarm_time None ;;
            set_alarm_triggered false
        | None => ret tt
        end
      else ret tt
  end.

Definition alarm_file : string := "mixkit-alert-alarm-1005.wav".

Definition newline : string := String (ascii_of_nat 10) EmptyString.

(** [play_alarm_sound]: [file_exists] is [os.path.exists(alarm_file)] and
    [playsound_error] is the exception [playsound] raises, if it raises. *)
Definition play_alarm_sound (file_exists : bool) (playsound_error : option exn) : M unit :=
  if negb file_exists then
    show_message_box "Error"
      ("Alarm sound file '" ++ alarm_file
       ++ "' not found. Please ensure it's in the same directory.")
  else
    try_except
      (match playsound_error with
       | Some e => raise e
       | None => ret tt
       end)
      (fun e =>
         show_message_box "Audio Error"
           ("Could not play alarm sound: " ++ exn_str e ++ newline
            ++ "Ensure 'playsound' is installed and the file is valid.") ;;
         status_config ("Audio Error: " ++ exn_str e)).

Definition stop_alarm : M unit :=
  show_message_box "Alarm Stopped"
    "Alarm will finish playing its current sound. Set a new alarm or snooze." ;;
  snooze_pack false ;;
  stop_pack false ;;
  set_alarm_triggered false ;;
  set_alarm_time None ;;
  status_config "Alarm stopped. Set a new alarm.".

(** [snooze]: [now] is the reading of [datetime.now()]. *)
Definition snooze (now : datetime) : M unit :=
  snooze_pack false ;;
  stop_pack false ;;
  t <- call (add now (timedelta_of 0 0 snooze_minutes 0 0))
            (OverflowError "date value out of range") ;;
  set_alarm_time (Some t) ;;
  set_alarm_triggered false ;;
  status_config ("Snoozed for " ++ str_int snooze_minutes
                 ++ " minutes. Next alarm at " ++ strftime_HMS t).

(** ** Running handlers *)

(** The state a handler leaves behind.  An exception that escapes a Tk
    callback or a thread is reported and the event loop goes on, so the
    state is kept either way. *)
Definition exec (m : M unit) (st : State) : State := snd (m st).

(** Whether the handler returned normally. *)
Definition returns (m : M unit) (st : State) : bool :=
  match fst (m st) with inr _ => true | inl _ => false end.

(** The states of section 4.3 of the specification. *)
Definition idle (st : State) : Prop :=
  alarm_time st = None /\ alarm_triggered st = false.

Definition armed (st : State) : Prop :=
  (exists t, alarm_time st = Some t) /\ alarm_triggered st = false.

Definition ringing (st : State) : Prop :=
  (exists t, alarm_time st = Some t) /\ alarm_triggered st = true.

Definition controls_hidden (st : State) : Prop :=
  snooze_button st = false /\ stop_button st = false.

Definition controls_shown (st : State) : Prop :=
  snooze_button st = true /\ stop_button st = true.

(** What can happen to the process: the three button callbacks, a clock
    tick, and the body of a playback thread. *)
Inductive Op :=
| SetAlarm (entry : string) (now1 now2 : datetime)
| Tick (now : datetime)
| Snooze (now : datetime)
| Stop
| Sound (file_exists : bool) (playsound_error : option exn).

Definition step (st : State) (op : Op) : State :=
  match op with
  | SetAlarm entry now1 now2 => exec (set_alarm entry now1 now2) st
  | Tick now => exec (check_alarm now) st
  | Snooze now => exec (snooze now) st
  | Stop => exec stop_alarm st
  | Sound fe pe => exec (play_alarm_sound fe pe) st
  end.

Definition run (ops : list Op) (st : State) : State := fold_left step ops st.

(** ** Vocabulary of the statements *)

(** The test of the first branch: same hour and minute, target reached. *)
Definition due (now t : datetime) : Prop :=
  hour now = hour t /\ minute now = minute t /\ cmp now t <> Lt.

(** The firing condition read on the timeline: the clock shows the
    target's hour and minute and its instant is at or past the target's. *)
Definition reached (now t : datetime) : Prop :=
  hour now = hour t /\ minute now = minute t /\ instant t <= instant now.

(** The test of the second branch, apart from [alarm_triggered]. *)
Definition minute_passed (now t : datetime) : Prop :=
  hour now = hour t /\ minute t < minute now.

(** The state a firing tick produces. *)
Definition fired (t : datetime) (st : State) : State :=
  mkState (Some t) true (Some (List.length (started st)))
          "ALARM! ALARM! ALARM!" true true (dialogs st) (t :: started st).

(** The state a self-clearing tick produces. *)
Definition cleared (st : State) : State :=
  mkState None false (alarm_thread st) "" false false (dialogs st) (started st).

(** While the alarm is ringing there is a target, and the most recent
    playback thread was started for it. *)
Definition ringing_has_playback (st : State) : Prop :=
  alarm_triggered st = true ->
  exists t, alarm_time st = Some t /\ hd_error (started st) = Some t.

(** The alarm variables and the playback history a handler leaves alone. *)
Definition same_alarm (st st' : State) : Prop :=
  alarm_time st' = alarm_time st /\
  alarm_triggered st' = alarm_triggered st /\
  started st' = started st.

(** The number of playback threads a state can still start by ticks alone. *)
Definition playbacks_left (st : State) : nat :=
  match alarm_time st with
  | Some _ => if alarm_triggered st then 0 else 1
  | None => 0
  end.

(** ** The window: clock label, entry field and the clock loop *)

(** The placeholder the module body inserts into the entry (line 188). *)
Definition placeholder : string := "HH:MM:SS".

(** The rest of the window around the alarm state: the text of the clock
    label, the text of the entry field, and how many [update_time]
    callbacks [label.after] has scheduled that have not run yet. *)
Record Window := mkWindow {
  app : State;
  label : string;
  alarm_entry : string;
  after_pending : nat
}.

(** [alarm_entry.delete(0, tk.END)] and [alarm_entry.insert(0, s)] *)
Definition entry_delete_all (text : string) : string := "".

Definition entry_insert_front (s text : string) : string := s ++ text.

(** The [<FocusIn>] binding: clear the entry when it shows the placeholder. *)
Definition on_focus_in (text : string) : string :=
  if String.eqb text placeholder then entry_delete_all text else text.

(** The [<FocusOut>] binding: put the placeholder back into an empty entry. *)
Definition on_focus_out (text : string) : string :=
  if String.eqb text "" then entry_insert_front placeholder text else text.

(** [update_time]: [current_time] is what [strftime] returned and [now] is
    the clock reading of [check_alarm].  The callback is scheduled again
    only when [check_alarm] returns. *)
Definition update_time (current_time : string) (now : datetime) (w : Window) : Window :=
  match check_alarm now (app w) with
  | (inr _, st') => mkWindow st' current_time (alarm_entry w) (S (after_pending w))
  | (inl _, st') => mkWindow st' current_time (alarm_entry w) (after_pending w)
  end.

(** The window when [mainloop] starts: the widgets are built, the entry
    shows the placeholder and [update_time] has run once. *)
Definition startup (current_time : string) (now : datetime) : Window :=
  update_time current_time now (mkWindow initial "" placeholder 0).

(** What the event loop delivers. *)
Inductive Event :=
| EvTimer (current_time : string) (now : datetime)
| EvFocusIn
| EvFocusOut
| EvEdit (text : string)
| EvSetAlarm (now1 now2 : datetime)
| EvSnooze (now : datetime)
| EvStop
| EvSound (file_exists : bool) (playsound_error : option exn).

(** A timer fires only when one is pending, and a button can be pressed
    only while it is packed. *)
Definition enabled (w : Window) (ev : Event) : Prop :=
  match ev with
  | EvTimer _ _ => (0 < after_pending w)%nat
  | EvSnooze _ => snooze_button (app w) = true
  | EvStop => stop_button (app w) = true
  | _ => True
  end.

Definition with_app (w : Window) (st : State) : Window :=
  mkWindow st (label w) (alarm_entry w) (after_pending w).

Definition with_entry (w : Window) (text : string) : Window :=
  mkWindow (app w) (label w) text (after_pending w).

Definition handle (w : Window) (ev : Event) : Window :=
  match ev with
  | EvTimer current_time now =>
      update_time current_time now
        (mkWindow (app w) (label w) (alarm_entry w) (pred (after_pending w)))
  | EvFocusIn => with_entry w (on_focus_in (alarm_entry w))
  | EvFocusOut => with_entry w (on_focus_out (alarm_entry w))
  | EvEdit text => with_entry w text
  | EvSetAlarm now1 now2 =>
      with_app w (exec (set_alarm (alarm_entry w) now1 now2) (app w))
  | EvSnooze now => with_app w (exec (snooze now) (app w))
  | EvStop => with_app w (exec stop_alarm (app w))
  | EvSound fe pe => with_app w (exec (play_alarm_sound fe pe) (app w))
  end.

(** The windows the event loop can reach. *)
Inductive Reachable : Window -> Prop :=
| reach_startup current_time now : Reachable (startup current_time now)
| reach_event w ev : Reachable w -> enabled w ev -> Reachable (handle w ev).

(** The windows reachable when the user never edits the entry. *)
Definition is_edit (ev : Event) : bool :=
  match ev with EvEdit _ => true | _ => false end.

Inductive Untouched : Window -> Prop :=
| untouched_startup current_time now : Untouched (startup current_time now)
| untouched_event w ev :
    Untouched w -> enabled w ev -> is_edit ev = false -> Untouched (handle w ev).

(** ** More vocabulary *)

(** The instant at which the minute of [t] begins. *)
Definition minute_start (t : datetime) : Z :=
  instant t - (second t * 1000000 + microsecond t).

Definition one_minute : Z := 60 * 1000000.

Definition one_day : Z := 86400 * 1000000.

(** The first instant after the last supported date. *)
Definition end_of_calendar : Z := (MAXORDINAL + 1) * one_day.

(** Every clock reading of the operation is a well-formed datetime. *)
Definition clock_valid (op : Op) : Prop :=
  match op with
  | SetAlarm _ now1 now2 => valid_datetime now1 /\ valid_datetime now2
  | Tick now => valid_datetime now
  | Snooze now => valid_datetime now
  | Stop => True
  | Sound _ _ => True
  end.

(** The two controls go together and are shown only while ringing. *)
Definition controls_only_ringing (st : State) : Prop :=
  snooze_button st = stop_button st /\
  (snooze_button st = true -> ringing st).

(** The alarm variables, the history and the controls are all untouched. *)
Definition untouched_alarm (st st' : State) : Prop :=
  same_alarm st st' /\
  snooze_button st' = snooze_button st /\ stop_button st' = stop_button st.

(** The target, when there is one, is a well-formed datetime. *)
Definition target_valid (st : State) : Prop :=
  forall t, alarm_time st = Some t -> valid_datetime t.

(** Fewest and most characters a regular expression can consume. *)
Fixpoint minlen (r : Strptime.re) : nat :=
  match r with
  | Strptime.Chr _ => 1
  | Strptime.Rng _ _ => 1
  | Strptime.Seq r1 r2 => minlen r1 + minlen r2
  | Strptime.Alt r1 r2 => Nat.min (minlen r1) (minlen r2)
  | Strptime.Group _ r1 => minlen r1
  end.

Fixpoint maxlen (r : Strptime.re) : nat :=
  match r with
  | Strptime.Chr _ => 1
  | Strptime.Rng _ _ => 1
  | Strptime.Seq r1 r2 => maxlen r1 + maxlen r2
  | Strptime.Alt r1 r2 => Nat.max (maxlen r1) (maxlen r2)
  | Strptime.Group _ r1 => maxlen r1
  end.

(** * Verification *)

(** ** Sample runs of the library model *)

Example strptime_ex1 :
  Strptime.strptime "14:30:00" = Some (mkdatetime 693596 14 30 0 0).
Proof. reflexivity. Qed.

Example strptime_ex2 : Strptime.strptime "7:5:9" = Some (mkdatetime 693596 7 5 9 0).
Proof. reflexivity. Qed.

Example strptime_ex3 : Strptime.strptime "25:99:99" = None.
Proof. reflexivity. Qed.

Example strptime_ex4 : Strptime.strptime "noon" = None.
Proof. reflexivity. Qed.

Example strptime_ex5 : Strptime.strptime "23:59:60" = None.
Proof. reflexivity. Qed.

Example strptime_ex6 : Strptime.strptime "12:00:00 " = None.
Proof. reflexivity. Qed.

Example strptime_ex7 : Strptime.strptime "HH:MM:SS" = None.
Proof. reflexivity. Qed.

Example add_ex1 :
  add (mkdatetime 739000 23 57 30 250000) (timedelta_of 0 0 5 0 0)
  = Some (mkdatetime 739001 0 2 30 250000).
Proof. reflexivity. Qed.

Example add_ex2 :
  add (mkdatetime MAXORDINAL 23 57 30 0) (timedelta_of 0 0 5 0 0) = None.
Proof. reflexivity. Qed.

Example strftime_ex1 : strftime_HMS (mkdatetime 739000 7 5 0 0) = "07:05:00".
Proof. reflexivity. Qed.

(** ** Facts about the [datetime] model *)

Module DatetimeFacts.

Ltac divmod := Z.div_mod_to_equations; lia.

(** On valid datetimes the field-wise comparison is the order of instants. *)
Lemma cmp_instant a b :
  valid_datetime a -> valid_datetime b -> cmp a b = (instant a ?= instant b).
Proof.
  intros (Ho & Hh & Hm & Hs & Hu) (Ho' & Hh' & Hm' & Hs' & Hu').
  unfold cmp, instant, lex.
  destruct (Z.compare_spec (ordinal a) (ordinal b));
    [ destruct (Z.compare_spec (hour a) (hour b));
      [ destruct (Z.compare_spec (minute a) (minute b));
        [ destruct (Z.compare_spec (second a) (second b));
          [ destruct (Z.compare_spec (microsecond a) (microsecond b)) | | ] | | ] | | ] | | ];
    symmetry;
    first [ apply Z.compare_eq_iff | apply Z.compare_lt_iff | apply Z.compare_gt_iff ];
    nia.
Qed.

(** Adding one day to a valid datetime keeps the time of day and moves to
    the next date, when there is one. *)
Lemma add_one_day d t :
  1 <= toordinal d -> toordinal d < MAXORDINAL -> valid_time t ->
  add (combine d t) (timedelta_of 1 0 0 0 0)
  = Some (combine (mkdate (toordinal d + 1)) t).
Proof.
  intros Hlo Hhi (Hh & Hm & Hs & Hu).
  destruct d as [o], t as [h m s u]; simpl in *.
  unfold add, td_add, timedelta_of, combine, MAXORDINAL in *; simpl.
  match goal with
  | |- (if ?c then _ else _) = _ =>
      assert (Hc : c = true)
        by (apply andb_true_intro; split;
            [ apply Z.ltb_lt | apply Z.leb_le ]; divmod);
      rewrite Hc
  end.
  f_equal. f_equal; divmod.
Qed.

(** When the sum exists it is a valid datetime, exactly [span td]
    microseconds after [a]. *)
Lemma add_instant a td r :
  valid_datetime a -> normalized td -> add a td = Some r ->
  valid_datetime r /\ instant r = instant a + span td.
Proof.
  intros (Ho & Hh & Hm & Hs & Hu) (Hts & Htu).
  destruct a as [o h m s u], td as [dd ds du]; simpl in *.
  unfold add, td_add, timedelta_of; simpl.
  match goal with
  | |- (if ?c then _ else _) = _ -> _ => destruct c eqn:Hc; [| discriminate]
  end.
  apply andb_prop in Hc. destruct Hc as [H1 H2].
  apply Z.ltb_lt in H1. apply Z.leb_le in H2.
  intros E. injection E as <-.
  unfold valid_datetime, instant, span; simpl.
  repeat split; try assumption; divmod.
Qed.

(** The sum exists as long as it stays within the supported dates. *)
Lemma add_defined a td :
  valid_datetime a -> normalized td -> 0 <= days td ->
  instant a + span td < (MAXORDINAL + 1) * 86400 * 1000000 ->
  exists r, add a td = Some r.
Proof.
  intros (Ho & Hh & Hm & Hs & Hu) (Hts & Htu) Hd.
  destruct a as [o h m s u], td as [dd ds du]; simpl in *.
  unfold add, td_add, timedelta_of, instant, span, MAXORDINAL in *; simpl.
  intros Hb.
  match goal with
  | |- exists _, (if ?c then _ else _) = _ =>
      assert (Hc : c = true)
        by (apply andb_true_intro; split;
            [ apply Z.ltb_lt | apply Z.leb_le ]; divmod);
      rewrite Hc
  end.
  eexists; reflexivity.
Qed.

Lemma normalized_minutes n : normalized (timedelta_of 0 0 n 0 0).
Proof. unfold normalized, timedelta_of; simpl. split; divmod. Qed.

End DatetimeFacts.

Import DatetimeFacts.

(** What [strptime] accepts is a time of day on 1900-01-01, to the second. *)
Lemma strptime_valid s d :
  Strptime.strptime s = Some d ->
  valid_time (time_of d) /\ microsecond d = 0.
Proof.
  unfold Strptime.strptime.
  destruct (Strptime.rmatch _ _ _ _) as [[rest cs]|]; [| discriminate].
  destruct (negb _); [discriminate |].
  destruct (_ && _) eqn:Hc; [| discriminate].
  intros E. injection E as <-.
  repeat (apply andb_prop in Hc; destruct Hc as [Hc ?]).
  repeat match goal with H : (_ <=? _) = true |- _ => apply Z.leb_le in H end.
  unfold valid_time; simpl. lia.
Qed.

Lemma strptime_placeholder : Strptime.strptime "HH:MM:SS" = None.
Proof. reflexivity. Qed.

(** Unfolds the monad and the primitive writes. *)
Ltac handler_unfold :=
  cbv [exec returns bind ret raise try_except gets modify call
       set_alarm_time set_alarm_triggered status_config snooze_pack stop_pack
       show_message_box start_thread].

(** ** [set_alarm] *)

Section SetAlarm.

Variables (entry : string) (now1 now2 : datetime) (st : State).

Lemma set_alarm_today parsed :
  Strptime.strptime entry = Some parsed ->
  le (combine (date_of now1) (time_of parsed)) now2 = false ->
  exec (set_alarm entry now1 now2) st
  = mkState (Some (combine (date_of now1) (time_of parsed))) false
            (alarm_thread st)
            ("Alarm set for today at "
             ++ strftime_HMS (combine (date_of now1) (time_of parsed)))
            false false (dialogs st) (started st).
Proof.
  intros Hp Hle. unfold set_alarm.
  destruct (String.eqb_spec entry "HH:MM:SS") as [-> | _].
  - rewrite strptime_placeholder in Hp. discriminate.
  - handler_unfold. rewrite Hp. cbv beta iota zeta.
    rewrite Hle. reflexivity.
Qed.

Lemma set_alarm_tomorrow parsed t :
  Strptime.strptime entry = Some parsed ->
  le (combine (date_of now1) (time_of parsed)) now2 = true ->
  add (combine (date_of now1) (time_of parsed)) (timedelta_of 1 0 0 0 0) = Some t ->
  exec (set_alarm entry now1 now2) st
  = mkState (Some t) false (alarm_thread st)
            ("Alarm set for tomorrow at " ++ strftime_HMS t)
            false false (dialogs st) (started st).
Proof.
  intros Hp Hle Ha. unfold set_alarm.
  destruct (String.eqb_spec entry "HH:MM:SS") as [-> | _].
  - rewrite strptime_placeholder in Hp. discriminate.
  - handler_unfold. rewrite Hp. cbv beta iota zeta.
    rewrite Hle. rewrite Ha. reflexivity.
Qed.

(** No date after 9999-12-31: the addition raises, the generic handler
    reports it and the alarm variables keep their values. *)
Lemma set_alarm_overflow parsed :
  Strptime.strptime entry = Some parsed ->
  le (combine (date_of now1) (time_of parsed)) now2 = true ->
  add (combine (date_of now1) (time_of parsed)) (timedelta_of 1 0 0 0 0) = None ->
  alarm_time (exec (set_alarm entry now1 now2) st) = alarm_time st /\
  alarm_triggered (exec (set_alarm entry now1 now2) st) = alarm_triggered st.
Proof.
  intros Hp Hle Ha. unfold set_alarm.
  destruct (String.eqb_spec entry "HH:MM:SS") as [-> | _].
  - rewrite strptime_placeholder in Hp. discriminate.
  - handler_unfold. rewrite Hp. cbv beta iota zeta.
    rewrite Hle. rewrite Ha. split; reflexivity.
Qed.

Lemma set_alarm_placeholder :
  entry = "HH:MM:SS" ->
  exec (set_alarm entry now1 now2) st
  = mkState (alarm_time st) (alarm_triggered st) (alarm_thread st)
            (status_label st) (snooze_button st) (stop_button st)
            (("Input Error", "Please enter a valid alarm time (HH:MM:SS).")
               :: dialogs st)
            (started st).
Proof. intros ->. reflexivity. Qed.

Lemma set_alarm_malformed :
  entry <> "HH:MM:SS" ->
  Strptime.strptime entry = None ->
  exec (set_alarm entry now1 now2) st
  = mkState (alarm_time st) (alarm_triggered st) (alarm_thread st)
            "Invalid format! Use HH:MM:SS" (snooze_button st) (stop_button st)
            (("Input Error",
              "Invalid time format! Please use HH:MM:SS (e.g., 14:30:00).")
               :: dialogs st)
            (started st).
Proof.
  intros Hne Hp. unfold set_alarm.
  destruct (String.eqb_spec entry "HH:MM:SS") as [E | _]; [contradiction |].
  handler_unfold. rewrite Hp. reflexivity.
Qed.

End SetAlarm.

(** ** [check_alarm] *)

Lemma ge_true_iff now t : ge now t = true <-> cmp now t <> Lt.
Proof. unfold ge. destruct (cmp now t); split; congruence. Qed.

(** On well-formed datetimes the handler's test is the timeline condition. *)
Lemma due_reached now t :
  valid_datetime now -> valid_datetime t -> (due now t <-> reached now t).
Proof.
  intros Hvn Hvt. unfold due, reached.
  rewrite (cmp_instant now t Hvn Hvt).
  destruct (Z.compare_spec (instant now) (instant t)) as [E | L | G].
  - split; intros (Hh & Hm & _); repeat split; try assumption; [lia | discriminate].
  - split; intros (Hh & Hm & H); [contradiction H; reflexivity | lia].
  - split; intros (Hh & Hm & _); repeat split; try assumption; [lia | discriminate].
Qed.

Lemma state_eta st :
  mkState (alarm_time st) (alarm_triggered st) (alarm_thread st) (status_label st)
          (snooze_button st) (stop_button st) (dialogs st) (started st) = st.
Proof. destruct st; reflexivity. Qed.

Section CheckAlarm.

Variables (now : datetime) (st : State).

Lemma check_alarm_idle :
  alarm_time st = None -> exec (check_alarm now) st = st.
Proof.
  intros H. unfold check_alarm. handler_unfold. rewrite H. reflexivity.
Qed.

Lemma check_alarm_fires t :
  alarm_time st = Some t -> alarm_triggered st = false -> due now t ->
  exec (check_alarm now) st = fired t st.
Proof.
  intros Ht Hg (Hh & Hm & Hc).
  unfold check_alarm. handler_unfold. rewrite Ht, Hg. cbv beta iota zeta.
  rewrite Hh, Hm, !Z.eqb_refl. cbn [negb andb].
  apply ge_true_iff in Hc. rewrite Hc.
  cbn. rewrite Ht. reflexivity.
Qed.

Lemma check_alarm_waits t :
  alarm_time st = Some t -> alarm_triggered st = false -> ~ due now t ->
  exec (check_alarm now) st = st.
Proof.
  intros Ht Hg Hn.
  unfold check_alarm. handler_unfold. rewrite Ht, Hg. cbv beta iota zeta.
  cbn [negb andb].
  destruct (Z.eqb_spec (hour now) (hour t)) as [Hh | Hh]; [| reflexivity].
  destruct (Z.eqb_spec (minute now) (minute t)) as [Hm | Hm]; [| reflexivity].
  destruct (ge now t) eqn:Hc; [| reflexivity].
  exfalso. apply Hn. repeat split; try assumption. now apply ge_true_iff.
Qed.

Lemma check_alarm_expires t :
  alarm_time st = Some t -> alarm_triggered st = true -> minute_passed now t ->
  exec (check_alarm now) st = cleared st.
Proof.
  intros Ht Hg (Hh & Hm).
  unfold check_alarm. handler_unfold. rewrite Ht, Hg. cbv beta iota zeta.
  rewrite Hh, Z.eqb_refl. cbn [negb andb].
  destruct (Z.ltb_spec (minute t) (minute now)); [| lia].
  cbn. rewrite Ht. reflexivity.
Qed.

Lemma check_alarm_keeps_ringing t :
  alarm_time st = Some t -> alarm_triggered st = true -> ~ minute_passed now t ->
  exec (check_alarm now) st = st.
Proof.
  intros Ht Hg Hn.
  unfold check_alarm. handler_unfold. rewrite Ht, Hg. cbv beta iota zeta.
  cbn [negb andb].
  destruct (Z.eqb_spec (hour now) (hour t)) as [Hh | Hh]; [| reflexivity].
  destruct (Z.ltb_spec (minute t) (minute now)); [| reflexivity].
  exfalso. apply Hn. split; assumption.
Qed.

(** A tick either leaves the state alone, fires or clears. *)
Lemma check_alarm_cases :
  exec (check_alarm now) st = st \/
  (exists t, alarm_time st = Some t /\ alarm_triggered st = false /\
             exec (check_alarm now) st = fired t st) \/
  (exists t, alarm_time st = Some t /\ alarm_triggered st = true /\
             exec (check_alarm now) st = cleared st).
Proof.
  destruct (alarm_time st) as [t |] eqn:Ht.
  2: { left. now apply check_alarm_idle. }
  destruct (alarm_triggered st) eqn:Hg.
  - destruct (Z.eq_dec (hour now) (hour t)) as [Hh | Hh].
    + destruct (Z_lt_dec (minute t) (minute now)) as [Hm | Hm].
      * right; right. exists t. repeat split.
        apply check_alarm_expires with t; [assumption .. | split; assumption].
      * left. apply check_alarm_keeps_ringing with t; try assumption.
        intros [_ ?]. contradiction.
    + left. apply check_alarm_keeps_ringing with t; try assumption.
      intros [? _]. contradiction.
  - destruct (Z.eq_dec (hour now) (hour t)) as [Hh | Hh].
    + destruct (Z.eq_dec (minute now) (minute t)) as [Hm | Hm].
      * destruct (cmp now t) eqn:Hc.
        -- right; left. exists t. repeat split.
           apply check_alarm_fires; try assumption. repeat split; congruence.
        -- left. apply check_alarm_waits with t; try assumption.
           intros (_ & _ & ?). contradiction.
        -- right; left. exists t. repeat split.
           apply check_alarm_fires; try assumption. repeat split; congruence.
      * left. apply check_alarm_waits with t; try assumption.
        intros (_ & ? & _). contradiction.
    + left. apply check_alarm_waits with t; try assumption.
      intros (? & _). contradiction.
Qed.

End CheckAlarm.

(** ** [snooze], [stop_alarm] and [play_alarm_sound] *)

Lemma snooze_state now st t :
  add now (timedelta_of 0 0 snooze_minutes 0 0) = Some t ->
  exec (snooze now) st
  = mkState (Some t) false (alarm_thread st)
            ("Snoozed for 5 minutes. Next alarm at " ++ strftime_HMS t)
            false false (dialogs st) (started st).
Proof.
  intros Ha. unfold snooze. handler_unfold. rewrite Ha. reflexivity.
Qed.

(** When the sum is out of range the call raises after hiding the buttons;
    the alarm variables are not written. *)
Lemma snooze_overflow now st :
  add now (timedelta_of 0 0 snooze_minutes 0 0) = None ->
  exec (snooze now) st
  = mkState (alarm_time st) (alarm_triggered st) (alarm_thread st)
            (status_label st) false false (dialogs st) (started st).
Proof.
  intros Ha. unfold snooze. handler_unfold. rewrite Ha. reflexivity.
Qed.

Lemma stop_alarm_state st :
  exec stop_alarm st
  = mkState None false (alarm_thread st) "Alarm stopped. Set a new alarm."
            false false
            (("Alarm Stopped",
              "Alarm will finish playing its current sound. Set a new alarm or snooze.")
               :: dialogs st)
            (started st).
Proof. reflexivity. Qed.

Lemma play_alarm_sound_frame fe pe st :
  alarm_time (exec (play_alarm_sound fe pe) st) = alarm_time st /\
  alarm_triggered (exec (play_alarm_sound fe pe) st) = alarm_triggered st /\
  started (exec (play_alarm_sound fe pe) st) = started st.
Proof.
  destruct fe, pe; repeat split; reflexivity.
Qed.

(** ** Invariants of the reachable states *)

Lemma set_alarm_effect entry now1 now2 st :
  let st' := exec (set_alarm entry now1 now2) st in
  same_alarm st st' \/ (alarm_triggered st' = false /\ started st' = started st).
Proof.
  intros st'. subst st'.
  destruct (string_dec entry "HH:MM:SS") as [E | E].
  { left. rewrite (set_alarm_placeholder entry now1 now2 st E).
    repeat split. }
  destruct (Strptime.strptime entry) as [parsed |] eqn:Hp.
  2: { left. rewrite (set_alarm_malformed entry now1 now2 st E Hp). repeat split. }
  destruct (le (combine (date_of now1) (time_of parsed)) now2) eqn:Hle.
  - destruct (add (combine (date_of now1) (time_of parsed)) (timedelta_of 1 0 0 0 0))
      as [t |] eqn:Ha.
    + right. rewrite (set_alarm_tomorrow entry now1 now2 st parsed t Hp Hle Ha).
      split; reflexivity.
    + left. unfold same_alarm.
      destruct (set_alarm_overflow entry now1 now2 st parsed Hp Hle Ha) as [H1 H2].
      repeat split; try assumption.
      unfold set_alarm.
      destruct (String.eqb_spec entry "HH:MM:SS") as [E' | _]; [contradiction |].
      handler_unfold. rewrite Hp. cbv beta iota zeta. rewrite Hle, Ha. reflexivity.
  - right. rewrite (set_alarm_today entry now1 now2 st parsed Hp Hle).
    split; reflexivity.
Qed.

Lemma snooze_effect now st :
  let st' := exec (snooze now) st in
  same_alarm st st' \/ (alarm_triggered st' = false /\ started st' = started st).
Proof.
  intros st'. subst st'.
  destruct (add now (timedelta_of 0 0 snooze_minutes 0 0)) as [t |] eqn:Ha.
  - right. rewrite (snooze_state now st t Ha). split; reflexivity.
  - left. rewrite (snooze_overflow now st Ha). repeat split.
Qed.

Lemma same_alarm_keeps st st' :
  same_alarm st st' -> ringing_has_playback st -> ringing_has_playback st'.
Proof.
  intros (Ha & Hg & Hs) Hinv. unfold ringing_has_playback.
  rewrite Ha, Hg, Hs. exact Hinv.
Qed.

Lemma not_triggered_keeps st :
  alarm_triggered st = false -> ringing_has_playback st.
Proof. intros H H'. congruence. Qed.

Lemma step_keeps st op :
  ringing_has_playback st -> ringing_has_playback (step st op).
Proof.
  intros Hinv. destruct op as [entry now1 now2 | now | now | | fe pe]; simpl.
  - destruct (set_alarm_effect entry now1 now2 st) as [H | [H _]].
    + now apply same_alarm_keeps with st.
    + now apply not_triggered_keeps.
  - destruct (check_alarm_cases now st) as [H | [(t & Ht & Hg & H) | (t & Ht & Hg & H)]];
      rewrite H.
    + exact Hinv.
    + intros _. exists t. split; reflexivity.
    + now apply not_triggered_keeps.
  - destruct (snooze_effect now st) as [H | [H _]].
    + now apply same_alarm_keeps with st.
    + now apply not_triggered_keeps.
  - now apply not_triggered_keeps.
  - apply same_alarm_keeps with st; [| exact Hinv].
    destruct (play_alarm_sound_frame fe pe st) as (H1 & H2 & H3).
    repeat split; assumption.
Qed.

Lemma run_keeps ops : forall st,
  ringing_has_playback st -> ringing_has_playback (run ops st).
Proof.
  induction ops as [| op ops IH]; intros st Hinv; simpl.
  - exact Hinv.
  - apply IH. now apply step_keeps.
Qed.

Lemma tick_spends now st :
  (List.length (started (exec (check_alarm now) st))
   + playbacks_left (exec (check_alarm now) st)
   <= List.length (started st) + playbacks_left st)%nat.
Proof.
  destruct (check_alarm_cases now st) as [H | [(t & Ht & Hg & H) | (t & Ht & Hg & H)]];
    rewrite H.
  - lia.
  - unfold playbacks_left. rewrite Ht, Hg. simpl. lia.
  - unfold playbacks_left; simpl. lia.
Qed.

Lemma ticks_spend nows : forall st,
  (List.length (started (run (map Tick nows) st))
   + playbacks_left (run (map Tick nows) st)
   <= List.length (started st) + playbacks_left st)%nat.
Proof.
  induction nows as [| now nows IH]; intros st; simpl.
  - lia.
  - specialize (IH (exec (check_alarm now) st)).
    pose proof (tick_spends now st). lia.
Qed.

(** Ticks only ever add to the playback history. *)
Lemma ticks_extend nows : forall st,
  exists more, started (run (map Tick nows) st) = (more ++ started st)%list.
Proof.
  induction nows as [| now nows IH]; intros st; simpl.
  - exists []. reflexivity.
  - destruct (IH (exec (check_alarm now) st)) as [more Hm]. rewrite Hm.
    destruct (check_alarm_cases now st) as [H | [(t & Ht & Hg & H) | (t & Ht & Hg & H)]];
      rewrite H.
    + exists more. reflexivity.
    + exists (more ++ [t])%list. simpl. rewrite <- app_assoc. reflexivity.
    + exists more. reflexivity.
Qed.

(** ** The specification's claims *)



(** C2. On a tick in the armed state ([alarm_time] set, [alarm_triggered]
    false), with well-formed datetimes, the evaluator fires exactly when
    the clock's hour and minute equal the target's and the clock's instant
    is at or past the target's instant: then [alarm_triggered] becomes
    true, the status reads the alarm text, one playback thread is started
    and both controls are shown; otherwise the tick leaves the whole state
    unchanged. *)
Theorem check_alarm_armed_tick now t st :
  valid_datetime now -> valid_datetime t ->
  alarm_time st = Some t ->
  alarm_triggered st = false ->
  let st' := exec (check_alarm now) st in
  (reached now t ->
   st' = fired t st /\ alarm_triggered st' = true /\
   status_label st' = "ALARM! ALARM! ALARM!" /\
   started st' = t :: started st /\
   alarm_thread st' = Some (List.length (started st)) /\
   controls_shown st') /\
  (~ reached now t -> st' = st) /\
  (alarm_triggered st' = true <-> reached now t).
Proof.
  intros Hvn Hvt Ht Hg st'. subst st'.
  pose proof (due_reached now t Hvn Hvt) as Hdr.
  split; [| split].
  - intros Hr. apply Hdr in Hr.
    rewrite (check_alarm_fires now st t Ht Hg Hr).
    repeat split; reflexivity.
  - intros Hn. apply (check_alarm_waits now st t Ht Hg).
    intros Hd. apply Hn, Hdr, Hd.
  - split.
    + intros Hfired.
      destruct (Z.eq_dec (hour now) (hour t)) as [Hh | Hh];
        [ destruct (Z.eq_dec (minute now) (minute t)) as [Hm | Hm];
          [ destruct (Z_le_dec (instant t) (instant now)) as [Hi | Hi] | ] | ].
      * repeat split; assumption.
      * rewrite (check_alarm_waits now st t Ht Hg) in Hfired; [congruence |].
        intros Hd. apply Hdr in Hd. destruct Hd as (_ & _ & ?). contradiction.
      * rewrite (check_alarm_waits now st t Ht Hg) in Hfired; [congruence |].
        intros (_ & ? & _). contradiction.
      * rewrite (check_alarm_waits now st t Ht Hg) in Hfired; [congruence |].
        intros (? & _). contradiction.
    + intros Hr. apply Hdr in Hr.
      rewrite (check_alarm_fires now st t Ht Hg Hr). reflexivity.
Qed.

Lemma check_alarm_armed_tick_witness :
  let t := mkdatetime 739000 14 30 20 0 in
  let st := mkState (Some t) false None "Alarm set for today at 14:30:20"
                    false false [] [] in
  exec (check_alarm (mkdatetime 739000 14 30 20 500)) st = fired t st /\
  exec (check_alarm (mkdatetime 739000 14 30 5 0)) st = st /\
  exec (check_alarm (mkdatetime 739000 14 29 59 0)) st = st /\
  exec (check_alarm (mkdatetime 739000 14 31 0 0)) st = st /\
  exec (check_alarm (mkdatetime 739001 14 30 5 0)) st = fired t st.
Proof.
  intros t st.
  assert (Hvt : valid_datetime t)
    by (unfold valid_datetime, MAXORDINAL; simpl; lia).
  split; [| split; [| split; [| split]]].
  - apply (check_alarm_armed_tick (mkdatetime 739000 14 30 20 500) t st).
    + unfold valid_datetime, MAXORDINAL; simpl; lia.
    + exact Hvt.
    + reflexivity.
    + reflexivity.
    + unfold reached, instant; simpl. lia.
  - apply (check_alarm_armed_tick (mkdatetime 739000 14 30 5 0) t st).
    + unfold valid_datetime, MAXORDINAL; simpl; lia.
    + exact Hvt.
    + reflexivity.
    + reflexivity.
    + unfold reached, instant; simpl. lia.
  - apply (check_alarm_armed_tick (mkdatetime 739000 14 29 59 0) t st).
    + unfold valid_datetime, MAXORDINAL; simpl; lia.
    + exact Hvt.
    + reflexivity.
    + reflexivity.
    + unfold reached, instant; simpl. lia.
  - apply (check_alarm_armed_tick (mkdatetime 739000 14 31 0 0) t st).
    + unfold valid_datetime, MAXORDINAL; simpl; lia.
    + exact Hvt.
    + reflexivity.
    + reflexivity.
    + unfold reached, instant; simpl. lia.
  - apply (check_alarm_armed_tick (mkdatetime 739001 14 30 5 0) t st).
    + unfold valid_datetime, MAXORDINAL; simpl; lia.
    + exact Hvt.
    + reflexivity.
    + reflexivity.
    + unfold reached, instant; simpl. lia.
Defined.

(** C6. When the entry is the placeholder ["HH:MM:SS"] or [strptime]
    rejects it, [set_alarm] shows an "Input Error" dialog and leaves
    [alarm_time] and [alarm_triggered] as they were. *)
Theorem set_alarm_rejects entry now1 now2 st :
  entry = "HH:MM:SS" \/ Strptime.strptime entry = None ->
  let st' := exec (set_alarm entry now1 now2) st in
  (exists message, dialogs st' = ("Input Error", message) :: dialogs st) /\
  alarm_time st' = alarm_time st /\
  alarm_triggered st' = alarm_triggered st.
Proof.
  intros H st'. subst st'.
  destruct (string_dec entry "HH:MM:SS") as [E | E].
  - rewrite (set_alarm_placeholder entry now1 now2 st E).
    split; [eexists; reflexivity | split; reflexivity].
  - destruct H as [H | H]; [contradiction |].
    rewrite (set_alarm_malformed entry now1 now2 st E H).
    split; [eexists; reflexivity | split; reflexivity].
Qed.

Lemma set_alarm_rejects_witness :
  let now := mkdatetime 739000 9 0 0 0 in
  let st := mkState (Some (mkdatetime 739000 14 30 0 0)) false None
                    "Alarm set for today at 14:30:00" false false [] [] in
  (alarm_time (exec (set_alarm "25:99:99" now now) st) = alarm_time st /\
   alarm_triggered (exec (set_alarm "25:99:99" now now) st) = alarm_triggered st) /\
  (alarm_time (exec (set_alarm "noon" now now) st) = alarm_time st /\
   alarm_triggered (exec (set_alarm "noon" now now) st) = alarm_triggered st) /\
  (alarm_time (exec (set_alarm "HH:MM:SS" now now) st) = alarm_time st /\
   alarm_triggered (exec (set_alarm "HH:MM:SS" now now) st) = alarm_triggered st).
Proof.
  intros now st. split; [| split].
  - apply (set_alarm_rejects "25:99:99" now now st (or_intror eq_refl)).
  - apply (set_alarm_rejects "noon" now now st (or_intror eq_refl)).
  - apply (set_alarm_rejects "HH:MM:SS" now now st (or_introl eq_refl)).
Defined.

(** C3. A ringing alarm whose target is in minute 59 is not cleared by the
    tick at the start of the next minute: the hour has changed, so the
    second branch of [check_alarm] does not apply and the state stays
    ringing.  Here the target is 10:59:00, the alarm fires on the tick at
    10:59:00 and the tick at 11:00:00 changes nothing. *)
Theorem check_alarm_hour_rollover :
  let T := mkdatetime 739000 10 59 0 0 in
  let next_minute := mkdatetime 739000 11 0 0 0 in
  let st0 := mkState (Some T) false None "Alarm set for today at 10:59:00"
                     false false [] [] in
  let st1 := exec (check_alarm T) st0 in
  let st2 := exec (check_alarm next_minute) st1 in
  instant next_minute = instant T + 60 * 1000000 /\
  ringing st1 /\ st2 = st1 /\
  alarm_time st2 = Some T /\ alarm_triggered st2 = true /\ controls_shown st2.
Proof.
  cbv zeta. unfold ringing, controls_shown.
  repeat split; try reflexivity. eexists; reflexivity.
Qed.

(** The run of the specification's test: armed at 14:30:00, ticks one
    second before, at, and one second after the target, then at 14:31:00. *)
Example ticks_around_target :
  let T := mkdatetime 739000 14 30 0 0 in
  let st0 := mkState (Some T) false None "Alarm set for today at 14:30:00"
                     false false [] [] in
  let st1 := exec (check_alarm (mkdatetime 739000 14 29 59 0)) st0 in
  let st2 := exec (check_alarm T) st1 in
  let st3 := exec (check_alarm (mkdatetime 739000 14 30 1 0)) st2 in
  let st4 := exec (check_alarm (mkdatetime 739000 14 31 0 0)) st3 in
  st1 = st0 /\ st2 = fired T st0 /\ st3 = st2 /\ st4 = cleared st3 /\ idle st4.
Proof. cbv zeta. repeat split. Qed.

(** Within the hour the clearing works: a tick in a later minute of the
    target's hour returns a ringing state to idle. *)
Lemma check_alarm_clears_within_hour now t st :
  alarm_time st = Some t -> alarm_triggered st = true ->
  hour now = hour t -> minute t < minute now ->
  let st' := exec (check_alarm now) st in
  idle st' /\ controls_hidden st' /\ status_label st' = "".
Proof.
  intros Ht Hg Hh Hm st'. subst st'.
  rewrite (check_alarm_expires now st t Ht Hg (conj Hh Hm)).
  repeat split; reflexivity.
Qed.

(** No tick at all clears a ringing alarm whose target is in minute 59. *)
Lemma check_alarm_minute_59_stuck now t st :
  alarm_time st = Some t -> alarm_triggered st = true ->
  minute t = 59 -> valid_datetime now ->
  exec (check_alarm now) st = st.
Proof.
  intros Ht Hg Hm (_ & _ & Hn & _).
  apply (check_alarm_keeps_ringing now st t Ht Hg).
  intros [_ H]. lia.
Qed.

(** C4. [snooze] in the ringing state, at a clock reading [now] at least
    [snooze_minutes] minutes before the end of the calendar: the new target
    is the instant exactly [snooze_minutes] minutes after [now],
    [alarm_triggered] is false and both controls are hidden, which is the
    armed state. *)
Theorem snooze_from_ringing now st :
  ringing st ->
  valid_datetime now ->
  instant now + snooze_minutes * 60 * 1000000 < (MAXORDINAL + 1) * 86400 * 1000000 ->
  let st' := exec (snooze now) st in
  exists t',
    add now (timedelta_of 0 0 snooze_minutes 0 0) = Some t' /\
    alarm_time st' = Some t' /\
    valid_datetime t' /\
    instant t' = instant now + snooze_minutes * 60 * 1000000 /\
    alarm_triggered st' = false /\
    controls_hidden st' /\
    armed st'.
Proof.
  intros _ Hv Hb st'. subst st'.
  pose proof (normalized_minutes snooze_minutes) as Hn.
  destruct (add_defined now (timedelta_of 0 0 snooze_minutes 0 0) Hv Hn) as [t' Ha].
  - vm_compute. discriminate.
  - exact Hb.
  - exists t'. rewrite (snooze_state now st t' Ha).
    destruct (add_instant now _ t' Hv Hn Ha) as [Hv' Hi].
    split; [exact Ha |]. split; [reflexivity |]. split; [exact Hv' |].
    split; [rewrite Hi; reflexivity |]. split; [reflexivity |].
    split; [split; reflexivity |].
    split; [eexists; reflexivity | reflexivity].
Qed.

Lemma snooze_from_ringing_witness :
  let now := mkdatetime 739000 23 57 30 250000 in
  let st := mkState (Some (mkdatetime 739000 23 57 0 0)) true (Some 0%nat)
                    "ALARM! ALARM! ALARM!" true true []
                    [mkdatetime 739000 23 57 0 0] in
  exists t',
    add now (timedelta_of 0 0 snooze_minutes 0 0) = Some t' /\
    alarm_time (exec (snooze now) st) = Some t' /\
    valid_datetime t' /\
    instant t' = instant now + snooze_minutes * 60 * 1000000 /\
    alarm_triggered (exec (snooze now) st) = false /\
    controls_hidden (exec (snooze now) st) /\
    armed (exec (snooze now) st).
Proof.
  intros now st.
  apply (snooze_from_ringing now st).
  - split; [eexists; reflexivity | reflexivity].
  - unfold valid_datetime, MAXORDINAL; simpl; lia.
  - vm_compute. reflexivity.
Defined.

(** C5. [stop_alarm] in the ringing state clears [alarm_time], resets
    [alarm_triggered] and hides both controls: the state is idle. *)
Theorem stop_alarm_from_ringing st :
  ringing st ->
  let st' := exec stop_alarm st in
  alarm_time st' = None /\ alarm_triggered st' = false /\
  controls_hidden st' /\ idle st'.
Proof.
  intros _ st'. subst st'. rewrite stop_alarm_state.
  unfold controls_hidden, idle; simpl. repeat split; reflexivity.
Qed.

Lemma stop_alarm_from_ringing_witness :
  let t := mkdatetime 739000 14 30 0 0 in
  let st := fired t (mkState (Some t) false None "" false false [] []) in
  ringing st /\
  alarm_time (exec stop_alarm st) = None /\
  alarm_triggered (exec stop_alarm st) = false /\
  controls_hidden (exec stop_alarm st) /\
  idle (exec stop_alarm st).
Proof.
  intros t st.
  assert (Hr : ringing st) by (split; [eexists; reflexivity | reflexivity]).
  split; [exact Hr |].
  apply (stop_alarm_from_ringing st Hr).
Defined.

(** C7. When the sound file is missing, [play_alarm_sound] shows an error
    dialog and returns; when [playsound] raises, it shows an error dialog,
    writes the error to the status label and returns.  Neither path writes
    [alarm_time] or [alarm_triggered]. *)
Theorem play_alarm_sound_errors st :
  (forall pe,
     let st' := exec (play_alarm_sound false pe) st in
     returns (play_alarm_sound false pe) st = true /\
     (exists message, dialogs st' = ("Error", message) :: dialogs st) /\
     status_label st' = status_label st /\
     alarm_time st' = alarm_time st /\
     alarm_triggered st' = alarm_triggered st) /\
  (forall e,
     let st' := exec (play_alarm_sound true (Some e)) st in
     returns (play_alarm_sound true (Some e)) st = true /\
     (exists message, dialogs st' = ("Audio Error", message) :: dialogs st) /\
     status_label st' = "Audio Error: " ++ exn_str e /\
     alarm_time st' = alarm_time st /\
     alarm_triggered st' = alarm_triggered st).
Proof.
  split.
  - intros pe st'. subst st'.
    repeat split; try reflexivity. eexists; reflexivity.
  - intros e st'. subst st'.
    repeat split; try reflexivity. eexists; reflexivity.
Qed.

(** C8. In every state reached from the initial state by [set_alarm],
    ticks, [snooze] and [stop_alarm] (and by playback threads running), if
    [alarm_triggered] is true then [alarm_time] is set and a playback
    thread has been started for that target. *)
Theorem triggered_implies_target_and_playback ops :
  alarm_triggered (run ops initial) = true ->
  exists t,
    alarm_time (run ops initial) = Some t /\
    In t (started (run ops initial)).
Proof.
  intros Hg.
  destruct (run_keeps ops initial (not_triggered_keeps initial eq_refl) Hg)
    as (t & Ht & Hh).
  exists t. split; [exact Ht |].
  destruct (started (run ops initial)) as [| x l]; [discriminate |].
  injection Hh as ->. left. reflexivity.
Qed.

Lemma triggered_implies_target_and_playback_witness :
  let ops := [ SetAlarm "14:30:00" (mkdatetime 739000 9 0 0 0) (mkdatetime 739000 9 0 0 1);
               Tick (mkdatetime 739000 14 29 59 0);
               Tick (mkdatetime 739000 14 30 0 0);
               Tick (mkdatetime 739000 14 30 1 0) ] in
  alarm_triggered (run ops initial) = true /\
  exists t,
    alarm_time (run ops initial) = Some t /\
    In t (started (run ops initial)).
Proof.
  intros ops. split.
  - reflexivity.
  - apply (triggered_implies_target_and_playback ops). reflexivity.
Defined.

(** C9. Once the alarm has fired ([alarm_triggered] true), a tick in the
    target's hour and minute changes nothing: no thread is started and
    [alarm_time], [alarm_triggered] and the controls stay as they are.  No
    run of ticks from a ringing state starts a playback, and a run of ticks
    from any state starts at most one. *)
Theorem no_second_playback t st :
  alarm_time st = Some t ->
  alarm_triggered st = true ->
  (forall now, hour now = hour t -> minute now = minute t ->
     exec (check_alarm now) st = st) /\
  (forall nows, started (run (map Tick nows) st) = started st) /\
  (forall nows st0,
     (List.length (started (run (map Tick nows) st0))
      <= S (List.length (started st0)))%nat).
Proof.
  intros Ht Hg. split; [| split].
  - intros now Hh Hm.
    apply (check_alarm_keeps_ringing now st t Ht Hg).
    intros [_ H]. lia.
  - intros nows.
    pose proof (ticks_spend nows st) as Hs.
    destruct (ticks_extend nows st) as [more Hm].
    unfold playbacks_left at 2 in Hs. rewrite Ht, Hg in Hs.
    rewrite Hm in *. rewrite length_app in Hs.
    destruct more as [| x more]; [reflexivity |]. simpl in Hs. lia.
  - intros nows st0.
    pose proof (ticks_spend nows st0) as Hs.
    assert (playbacks_left st0 <= 1)%nat.
    { unfold playbacks_left. destruct (alarm_time st0), (alarm_triggered st0); lia. }
    lia.
Qed.

Lemma no_second_playback_witness :
  let t := mkdatetime 739000 14 30 0 0 in
  let st := fired t (mkState (Some t) false None "" false false [] []) in
  exec (check_alarm (mkdatetime 739000 14 30 1 0)) st = st /\
  started (run (map Tick [mkdatetime 739000 14 30 1 0;
                          mkdatetime 739000 14 30 2 0;
                          mkdatetime 739000 14 31 0 0;
                          mkdatetime 739001 14 30 0 0]) st) = started st.
Proof.
  intros t st.
  pose proof (no_second_playback t st eq_refl eq_refl) as (H1 & H2 & _).
  split.
  - apply H1; reflexivity.
  - apply H2.
Defined.

(** C10. [snooze] does not look at the state it is called in: whenever the
    sum [now + timedelta(minutes=snooze_minutes)] exists, in any state
    (idle, armed or ringing) it makes that sum the target, five minutes
    after [now], and sets [alarm_triggered] to false; a target armed before
    is replaced and no dialog is shown. *)
Theorem snooze_unguarded now st t' :
  add now (timedelta_of 0 0 snooze_minutes 0 0) = Some t' ->
  let st' := exec (snooze now) st in
  snooze_minutes = 5 /\
  alarm_time st' = Some t' /\
  alarm_triggered st' = false /\
  dialogs st' = dialogs st /\
  returns (snooze now) st = true /\
  (valid_datetime now -> instant t' = instant now + 5 * 60 * 1000000).
Proof.
  intros Ha st'. subst st'. rewrite (snooze_state now st t' Ha).
  repeat split.
  - unfold returns, snooze. handler_unfold. rewrite Ha. reflexivity.
  - intros Hv.
    destruct (add_instant now _ t' Hv (normalized_minutes snooze_minutes) Ha) as [_ Hi].
    rewrite Hi. reflexivity.
Qed.

Lemma snooze_unguarded_witness :
  let now := mkdatetime 739000 9 0 0 0 in
  let t' := mkdatetime 739000 9 5 0 0 in
  let armed_st := mkState (Some (mkdatetime 739000 14 30 0 0)) false None
                          "Alarm set for today at 14:30:00" false false [] [] in
  (alarm_time (exec (snooze now) initial) = Some t' /\
   alarm_triggered (exec (snooze now) initial) = false) /\
  (alarm_time (exec (snooze now) armed_st) = Some t' /\
   alarm_triggered (exec (snooze now) armed_st) = false).
Proof.
  intros now t' armed_st. split.
  - pose proof (snooze_unguarded now initial t' eq_refl) as (_ & H1 & H2 & _).
    split; [exact H1 | exact H2].
  - pose proof (snooze_unguarded now armed_st t' eq_refl) as (_ & H1 & H2 & _).
    split; [exact H1 | exact H2].
Defined.

(** ** Further properties of the handlers *)

(** *** Parsing and printing times *)

Module RoundTrip.

Import Strptime.

Lemma consumed_two a b rest :
  substring 0 (prefix_len (String a (String b rest)) rest) (String a (String b rest))
  = String a (String b EmptyString).
Proof.
  unfold prefix_len. cbn [String.length].
  replace (S (S (String.length rest)) - String.length rest)%nat with 2%nat by lia.
  destruct rest; reflexivity.
Qed.

(** One two-digit field, by running the matcher on each value. *)
Ltac field_case n :=
  let v := eval vm_compute in (pad2 (Z.of_nat n)) in
  change (pad2 (Z.of_nat n)) with v in *;
  cbn -[prefix_len substring];
  rewrite ?consumed_two;
  match goal with Hk : _ = Some _ |- _ => rewrite Hk end;
  reflexivity.

Tactic Notation "field_cases" integer(count) ident(m) :=
  do count (destruct m as [| m];
            [ match goal with |- context [pad2 (Z.of_nat ?n)] => field_case n end |]);
  lia.

Section Fields.

Context {A : Type} (k : string -> caps -> option A) (rest : string) (cs : caps) (x : A).

Lemma rmatch_H h :
  (h < 24)%nat ->
  k rest (("H"%string, pad2 (Z.of_nat h)) :: cs) = Some x ->
  rmatch re_H (pad2 (Z.of_nat h) ++ rest) cs k = Some x.
Proof. intros Hh Hk. unfold re_H, digit. field_cases 24 h. Qed.

Lemma rmatch_M m :
  (m < 60)%nat ->
  k rest (("M"%string, pad2 (Z.of_nat m)) :: cs) = Some x ->
  rmatch re_M (pad2 (Z.of_nat m) ++ rest) cs k = Some x.
Proof. intros Hm Hk. unfold re_M, digit. field_cases 60 m. Qed.

Lemma rmatch_S s :
  (s < 60)%nat ->
  k rest (("S"%string, pad2 (Z.of_nat s)) :: cs) = Some x ->
  rmatch re_S (pad2 (Z.of_nat s) ++ rest) cs k = Some x.
Proof. intros Hs Hk. unfold re_S, digit. field_cases 60 s. Qed.

Lemma rmatch_seq r1 r2 s :
  rmatch (Seq r1 r2) s cs k = rmatch r1 s cs (fun s1 cs1 => rmatch r2 s1 cs1 k).
Proof. reflexivity. Qed.

Lemma rmatch_colon r s :
  rmatch (Seq (Chr ":") r) (":" ++ s) cs k = rmatch r s cs k.
Proof. reflexivity. Qed.

End Fields.

Lemma int_pad2 n : 0 <= n < 100 -> int (pad2 n) = n.
Proof.
  intros Hn. unfold int, pad2, int_acc, digit_char.
  rewrite !nat_ascii_embedding.
  - rewrite !Nat2Z.inj_add, !Z2Nat.id; Z.div_mod_to_equations; lia.
  - assert (0 <= n mod 10 < 10) by (apply Z.mod_pos_bound; lia). lia.
  - assert (0 <= n / 10 < 10) by (Z.div_mod_to_equations; lia). lia.
Qed.

(** The whole pattern on a printed time. *)
Lemma rmatch_printed h m s :
  (h < 24)%nat -> (m < 60)%nat -> (s < 60)%nat ->
  rmatch format_regex
         (pad2 (Z.of_nat h) ++ ":" ++ pad2 (Z.of_nat m) ++ ":" ++ pad2 (Z.of_nat s))
         [] (fun rest cs => Some (rest, cs))
  = Some (""%string,
          [("S"%string, pad2 (Z.of_nat s)); ("M"%string, pad2 (Z.of_nat m));
           ("H"%string, pad2 (Z.of_nat h))]).
Proof.
  intros Hh Hm Hs. unfold format_regex. rewrite rmatch_seq.
  apply rmatch_H; [exact Hh |]. cbv beta. rewrite rmatch_colon, rmatch_seq.
  apply rmatch_M; [exact Hm |]. cbv beta. rewrite rmatch_colon.
  change (pad2 (Z.of_nat s)) with (pad2 (Z.of_nat s) ++ "") at 1.
  apply rmatch_S; [exact Hs |]. reflexivity.
Qed.

End RoundTrip.

(** X1. The time [strftime('%H:%M:%S')] prints for a well-formed datetime
    is accepted by [strptime] and parses back to the same hour, minute and
    second, on 1900-01-01 with no microseconds. *)
Theorem strptime_strftime_roundtrip d :
  valid_datetime d ->
  Strptime.strptime (strftime_HMS d)
  = Some (mkdatetime Strptime.ordinal_1900_01_01 (hour d) (minute d) (second d) 0).
Proof.
  intros (_ & Hh & Hm & Hs & _).
  unfold Strptime.strptime, strftime_HMS.
  rewrite <- (Z2Nat.id (hour d)), <- (Z2Nat.id (minute d)), <- (Z2Nat.id (second d)) by lia.
  rewrite RoundTrip.rmatch_printed by lia.
  change (negb (String.eqb "" "")) with false. cbv iota.
  change (Strptime.group_int "H" _) with (Strptime.int (pad2 (Z.of_nat (Z.to_nat (hour d))))).
  change (Strptime.group_int "M" _) with (Strptime.int (pad2 (Z.of_nat (Z.to_nat (minute d))))).
  change (Strptime.group_int "S" _) with (Strptime.int (pad2 (Z.of_nat (Z.to_nat (second d))))).
  rewrite !RoundTrip.int_pad2 by lia.
  rewrite !Z2Nat.id by lia. cbv zeta.
  replace (0 <=? hour d) with true by (symmetry; apply Z.leb_le; lia).
  replace (hour d <=? 23) with true by (symmetry; apply Z.leb_le; lia).
  replace (0 <=? minute d) with true by (symmetry; apply Z.leb_le; lia).
  replace (minute d <=? 59) with true by (symmetry; apply Z.leb_le; lia).
  replace (0 <=? second d) with true by (symmetry; apply Z.leb_le; lia).
  replace (second d <=? 59) with true by (symmetry; apply Z.leb_le; lia).
  reflexivity.
Qed.

Lemma strptime_strftime_roundtrip_witness :
  Strptime.strptime (strftime_HMS (mkdatetime 739000 7 5 9 123456))
  = Some (mkdatetime Strptime.ordinal_1900_01_01 7 5 9 0).
Proof.
  apply (strptime_strftime_roundtrip (mkdatetime 739000 7 5 9 123456)).
  unfold valid_datetime, MAXORDINAL; simpl; lia.
Defined.

(** *** Timing of the alarm *)

Lemma due_dec now t : {due now t} + {~ due now t}.
Proof.
  unfold due.
  destruct (Z.eq_dec (hour now) (hour t)) as [Hh | Hh]; [| right; tauto].
  destruct (Z.eq_dec (minute now) (minute t)) as [Hm | Hm]; [| right; tauto].
  destruct (cmp now t) eqn:Hc.
  - left. repeat split; congruence.
  - right. intros (_ & _ & H). contradiction.
  - left. repeat split; congruence.
Qed.

Lemma armed_tick_triggered now t st :
  alarm_time st = Some t -> alarm_triggered st = false ->
  (alarm_triggered (exec (check_alarm now) st) = true <-> due now t).
Proof.
  intros Ht Hg. split.
  - intros Hf. destruct (due_dec now t) as [Hd | Hn]; [exact Hd |].
    rewrite (check_alarm_waits now st t Ht Hg Hn) in Hf. congruence.
  - intros Hd. rewrite (check_alarm_fires now st t Ht Hg Hd). reflexivity.
Qed.

(** [due] in terms of instants: at or after the target, and in the
    target's minute of the day, on the target's day or a later one. *)
Lemma due_instant now t :
  valid_datetime now -> valid_datetime t ->
  (due now t <->
   instant t <= instant now /\
   exists k, 0 <= k /\
             minute_start t + k * one_day <= instant now
             < minute_start t + k * one_day + one_minute).
Proof.
  intros Hvn Hvt.
  pose proof (cmp_instant now t Hvn Hvt) as Hcmp.
  destruct Hvn as (Ho & Hh & Hm & Hs & Hu), Hvt as (Ho' & Hh' & Hm' & Hs' & Hu').
  unfold due, minute_start, one_day, one_minute, instant in *.
  split.
  - intros (Eh & Em & Hc).
    assert (Hge : ((ordinal t * 86400 + hour t * 3600 + minute t * 60 + second t) * 1000000
                   + microsecond t
                   <= (ordinal now * 86400 + hour now * 3600 + minute now * 60 + second now)
                      * 1000000 + microsecond now)).
    { apply Z.le_ngt. intros Hlt. apply Hc. rewrite Hcmp. apply Z.compare_lt_iff. exact Hlt. }
    split; [exact Hge |].
    exists (ordinal now - ordinal t). lia.
  - intros (Hge & k & Hk & Hlo & Hhi).
    assert (Ek : ordinal now * 1440 + hour now * 60 + minute now
                 = ordinal t * 1440 + hour t * 60 + minute t + 1440 * k) by lia.
    assert (Eo : ordinal now = ordinal t + k) by lia.
    repeat split; try lia.
    rewrite Hcmp. intros Hlt. rewrite Z.compare_lt_iff in Hlt. lia.
Qed.

(** X2. With a well-formed clock whose two readings fall on the same date
    (not the last of the calendar), an accepted entry always yields a
    target strictly after the second reading and at most 24 hours after
    it. *)
Theorem set_alarm_target_upcoming entry now1 now2 parsed st :
  valid_datetime now1 -> valid_datetime now2 ->
  ordinal now1 = ordinal now2 -> ordinal now1 < MAXORDINAL ->
  Strptime.strptime entry = Some parsed ->
  exists t,
    alarm_time (exec (set_alarm entry now1 now2) st) = Some t /\
    valid_datetime t /\
    instant now2 < instant t <= instant now2 + one_day.
Proof.
  intros Hv1 Hv2 Eo Hmax Hp.
  destruct (strptime_valid entry parsed Hp) as [Hvt _].
  set (today := combine (date_of now1) (time_of parsed)).
  assert (Hvtoday : valid_datetime today).
  { destruct Hv1 as (Ho & _), Hvt as (Hh & Hm & Hs & Hu).
    unfold valid_datetime, today, combine, date_of; simpl. tauto. }
  pose proof (cmp_instant today now2 Hvtoday Hv2) as Hcmp.
  destruct (le today now2) eqn:Hle.
  - assert (Ha : add today (timedelta_of 1 0 0 0 0)
                 = Some (combine (mkdate (toordinal (date_of now1) + 1)) (time_of parsed))).
    { apply add_one_day; [destruct Hv1 as (Ho & _); simpl; lia | simpl; lia | exact Hvt]. }
    exists (combine (mkdate (toordinal (date_of now1) + 1)) (time_of parsed)).
    rewrite (set_alarm_tomorrow entry now1 now2 st parsed _ Hp Hle Ha).
    split; [reflexivity |].
    assert (Hi : instant today <= instant now2).
    { unfold le in Hle. rewrite Hcmp in Hle.
      destruct (Z.compare_spec (instant today) (instant now2)); try lia; discriminate. }
    destruct Hv1 as (Ho & _), Hv2 as (Ho2 & Hh2 & Hm2 & Hs2 & Hu2),
             Hvt as (Hh & Hm & Hs & Hu).
    unfold valid_datetime, instant, one_day, today, combine, date_of, time_of,
      MAXORDINAL in *; simpl in *.
    repeat split; lia.
  - exists today.
    rewrite (set_alarm_today entry now1 now2 st parsed Hp Hle).
    split; [reflexivity |]. split; [exact Hvtoday |].
    assert (Hi : instant now2 < instant today).
    { unfold le in Hle. rewrite Hcmp in Hle.
      destruct (Z.compare_spec (instant today) (instant now2)); try lia; discriminate. }
    split; [exact Hi |].
    destruct Hv2 as (Ho2 & Hh2 & Hm2 & Hs2 & Hu2), Hvt as (Hh & Hm & Hs & Hu).
    unfold instant, one_day, today, combine, date_of, time_of in *; simpl in *.
    lia.
Qed.

Lemma set_alarm_target_upcoming_witness :
  let now := mkdatetime 739000 9 0 0 0 in
  exists t,
    alarm_time (exec (set_alarm "08:59:59" now now) initial) = Some t /\
    valid_datetime t /\
    instant now < instant t <= instant now + one_day.
Proof.
  intros now.
  apply (set_alarm_target_upcoming "08:59:59" now now (mkdatetime 693596 8 59 59 0) initial).
  - unfold valid_datetime, MAXORDINAL; simpl; lia.
  - unfold valid_datetime, MAXORDINAL; simpl; lia.
  - reflexivity.
  - unfold MAXORDINAL; simpl; lia.
  - reflexivity.
Defined.

(** X3. With well-formed datetimes, a tick fires an armed alarm exactly
    when the clock is at or after the target instant and falls within the
    target's minute of the day, on the target's day or any later day.  So
    the alarm never rings early, rings whenever a tick lands between the
    target and the end of its minute, and a missed alarm rings at that
    minute on a later day. *)
Theorem check_alarm_fires_in_target_minute now t st :
  valid_datetime now -> valid_datetime t ->
  alarm_time st = Some t -> alarm_triggered st = false ->
  (alarm_triggered (exec (check_alarm now) st) = true <->
   instant t <= instant now /\
   exists k, 0 <= k /\
             minute_start t + k * one_day <= instant now
             < minute_start t + k * one_day + one_minute).
Proof.
  intros Hvn Hvt Ht Hg.
  rewrite (armed_tick_triggered now t st Ht Hg).
  apply due_instant; assumption.
Qed.

Lemma check_alarm_fires_in_target_minute_witness :
  let t := mkdatetime 739000 14 30 20 0 in
  let st := mkState (Some t) false None "" false false [] [] in
  alarm_triggered (exec (check_alarm (mkdatetime 739001 14 30 5 0)) st) = true.
Proof.
  intros t st.
  apply (check_alarm_fires_in_target_minute (mkdatetime 739001 14 30 5 0) t st).
  - unfold valid_datetime, MAXORDINAL; simpl; lia.
  - unfold valid_datetime, MAXORDINAL; simpl; lia.
  - reflexivity.
  - reflexivity.
  - split.
    + vm_compute. discriminate.
    + exists 1. vm_compute. repeat split; discriminate.
Defined.

Lemma add_overflow a td :
  valid_datetime a -> normalized td -> 0 <= days td ->
  end_of_calendar <= instant a + span td ->
  add a td = None.
Proof.
  intros (Ho & Hh & Hm & Hs & Hu) (Hts & Htu) Hd.
  destruct a as [o h m s u], td as [dd ds du]; simpl in *.
  unfold add, td_add, timedelta_of, instant, span, end_of_calendar, one_day,
    MAXORDINAL in *; simpl.
  intros Hb.
  match goal with
  | |- (if ?c then _ else _) = _ =>
      assert (Hc : c = false)
        by (apply andb_false_intro2; apply Z.leb_gt; Z.div_mod_to_equations; lia);
      rewrite Hc
  end.
  reflexivity.
Qed.

Lemma span_snooze : span (timedelta_of 0 0 snooze_minutes 0 0) = snooze_minutes * one_minute.
Proof. reflexivity. Qed.

(** X4. After [snooze] at a well-formed clock reading [now] (more than
    five minutes before the end of the calendar) the target is the instant
    [now] plus [snooze_minutes] minutes; every tick before that instant
    leaves the state unchanged, and a tick from that instant to the end of
    its minute fires the alarm. *)
Theorem snooze_timing now now' st :
  valid_datetime now -> valid_datetime now' ->
  instant now + snooze_minutes * one_minute < end_of_calendar ->
  let st' := exec (snooze now) st in
  exists t',
    alarm_time st' = Some t' /\
    instant t' = instant now + snooze_minutes * one_minute /\
    (instant now' < instant t' -> exec (check_alarm now') st' = st') /\
    (instant t' <= instant now' < minute_start t' + one_minute ->
     alarm_triggered (exec (check_alarm now') st') = true).
Proof.
  intros Hv Hv' Hb st'. subst st'.
  pose proof (normalized_minutes snooze_minutes) as Hn.
  destruct (add_defined now (timedelta_of 0 0 snooze_minutes 0 0) Hv Hn) as [t' Ha].
  { vm_compute. discriminate. }
  { rewrite span_snooze. exact Hb. }
  destruct (add_instant now _ t' Hv Hn Ha) as [Hvt Hi]. rewrite span_snooze in Hi.
  exists t'. rewrite (snooze_state now st t' Ha).
  split; [reflexivity |]. split; [exact Hi |]. split.
  - intros Hlt. apply check_alarm_waits with t'; try reflexivity.
    intros Hd. apply (due_instant now' t' Hv' Hvt) in Hd. lia.
  - intros Hin. apply (armed_tick_triggered now' t'); try reflexivity.
    apply (due_instant now' t' Hv' Hvt). split; [lia |].
    exists 0. destruct Hvt as (_ & _ & _ & Hs & Hu).
    unfold minute_start, one_day, one_minute in *. lia.
Qed.

Lemma snooze_timing_witness :
  let now := mkdatetime 739000 23 57 30 0 in
  let st := fired now (mkState (Some now) false None "" false false [] []) in
  exists t',
    alarm_time (exec (snooze now) st) = Some t' /\
    instant t' = instant now + snooze_minutes * one_minute /\
    (instant (mkdatetime 739001 0 2 29 0) < instant t' ->
     exec (check_alarm (mkdatetime 739001 0 2 29 0)) (exec (snooze now) st)
     = exec (snooze now) st) /\
    (instant t' <= instant (mkdatetime 739001 0 2 29 0) < minute_start t' + one_minute ->
     alarm_triggered (exec (check_alarm (mkdatetime 739001 0 2 29 0)) (exec (snooze now) st))
     = true).
Proof.
  intros now st.
  apply (snooze_timing now (mkdatetime 739001 0 2 29 0) st).
  - unfold valid_datetime, MAXORDINAL; simpl; lia.
  - unfold valid_datetime, MAXORDINAL; simpl; lia.
  - vm_compute. reflexivity.
Defined.

(** *** Runs of ticks *)

Lemma ticks_from_triggered nows st :
  alarm_triggered st = true -> started (run (map Tick nows) st) = started st.
Proof.
  intros Hg.
  pose proof (ticks_spend nows st) as Hs.
  destruct (ticks_extend nows st) as [more Hm].
  assert (Hl : playbacks_left st = 0%nat).
  { unfold playbacks_left. rewrite Hg. destruct (alarm_time st); reflexivity. }
  rewrite Hl, Hm, length_app in Hs. rewrite Hm.
  destruct more as [| x more]; [reflexivity |]. simpl in Hs. lia.
Qed.

(** X5. From an armed state, a run of ticks that contains at least one
    tick in the target's minute at or after the target starts exactly one
    playback thread, for that target. *)
Theorem armed_fires_exactly_once t nows st :
  alarm_time st = Some t -> alarm_triggered st = false ->
  Exists (fun now => due now t) nows ->
  started (run (map Tick nows) st) = t :: started st.
Proof.
  intros Ht Hg Hex. induction Hex as [now nows Hd | now nows Hex IH]; simpl.
  - rewrite (check_alarm_fires now st t Ht Hg Hd).
    rewrite ticks_from_triggered by reflexivity. reflexivity.
  - destruct (due_dec now t) as [Hd | Hn].
    + rewrite (check_alarm_fires now st t Ht Hg Hd).
      rewrite ticks_from_triggered by reflexivity. reflexivity.
    + rewrite (check_alarm_waits now st t Ht Hg Hn). exact IH.
Qed.

Lemma armed_fires_exactly_once_witness :
  let t := mkdatetime 739000 14 30 0 0 in
  let st := mkState (Some t) false None "" false false [] [] in
  started (run (map Tick [mkdatetime 739000 14 29 59 0;
                          mkdatetime 739000 14 30 0 0;
                          mkdatetime 739000 14 30 1 0;
                          mkdatetime 739000 14 31 0 0;
                          mkdatetime 739001 14 30 0 0]) st)
  = [t].
Proof.
  intros t st.
  apply (armed_fires_exactly_once t _ st eq_refl eq_refl).
  apply Exists_cons_tl. apply Exists_cons_hd.
  unfold due; simpl. repeat split; discriminate.
Defined.

Lemma ticks_idle nows : forall st,
  alarm_time st = None -> run (map Tick nows) st = st.
Proof.
  induction nows as [| now nows IH]; intros st Hn; simpl.
  - reflexivity.
  - rewrite (check_alarm_idle now st Hn). apply IH. exact Hn.
Qed.

(** X6. After [stop_alarm], from whatever state, no run of ticks changes
    anything: nothing rings again until the user sets or snoozes. *)
Theorem stop_then_ticks_silent st nows :
  run (map Tick nows) (exec stop_alarm st) = exec stop_alarm st.
Proof. apply ticks_idle. reflexivity. Qed.

(** *** Invariants of every run *)

Lemma set_alarm_overflow_state entry now1 now2 st parsed :
  Strptime.strptime entry = Some parsed ->
  le (combine (date_of now1) (time_of parsed)) now2 = true ->
  add (combine (date_of now1) (time_of parsed)) (timedelta_of 1 0 0 0 0) = None ->
  exec (set_alarm entry now1 now2) st
  = mkState (alarm_time st) (alarm_triggered st) (alarm_thread st)
            "Error setting alarm: date value out of range"
            (snooze_button st) (stop_button st)
            (("Error", "An unexpected error occurred: date value out of range")
               :: dialogs st)
            (started st).
Proof.
  intros Hp Hle Ha. unfold set_alarm.
  destruct (String.eqb_spec entry "HH:MM:SS") as [-> | _].
  - rewrite strptime_placeholder in Hp. discriminate.
  - handler_unfold. rewrite Hp. cbv beta iota zeta.
    rewrite Hle, Ha. reflexivity.
Qed.

(** [set_alarm] either leaves the alarm alone or arms a target, resolved
    for today or through the addition of one day, with the controls hidden. *)
Lemma set_alarm_outcome entry now1 now2 st :
  let st' := exec (set_alarm entry now1 now2) st in
  untouched_alarm st st' \/
  (exists parsed t,
     Strptime.strptime entry = Some parsed /\
     alarm_time st' = Some t /\ alarm_triggered st' = false /\
     snooze_button st' = false /\ stop_button st' = false /\
     started st' = started st /\
     (t = combine (date_of now1) (time_of parsed) \/
      add (combine (date_of now1) (time_of parsed)) (timedelta_of 1 0 0 0 0) = Some t)).
Proof.
  intros st'. subst st'.
  destruct (string_dec entry "HH:MM:SS") as [E | E].
  { left. rewrite (set_alarm_placeholder entry now1 now2 st E). repeat split. }
  destruct (Strptime.strptime entry) as [parsed |] eqn:Hp.
  2: { left. rewrite (set_alarm_malformed entry now1 now2 st E Hp). repeat split. }
  destruct (le (combine (date_of now1) (time_of parsed)) now2) eqn:Hle.
  - destruct (add (combine (date_of now1) (time_of parsed)) (timedelta_of 1 0 0 0 0))
      as [t |] eqn:Ha.
    + right. exists parsed, t.
      rewrite (set_alarm_tomorrow entry now1 now2 st parsed t Hp Hle Ha).
      repeat split. right. first [exact Ha | reflexivity].
    + left. rewrite (set_alarm_overflow_state entry now1 now2 st parsed Hp Hle Ha).
      repeat split.
  - right. exists parsed, (combine (date_of now1) (time_of parsed)).
    rewrite (set_alarm_today entry now1 now2 st parsed Hp Hle).
    repeat split. left. reflexivity.
Qed.

Lemma play_alarm_sound_untouched fe pe st :
  untouched_alarm st (exec (play_alarm_sound fe pe) st).
Proof. destruct fe, pe; repeat split. Qed.

Lemma untouched_keeps_controls st st' :
  untouched_alarm st st' -> controls_only_ringing st -> controls_only_ringing st'.
Proof.
  intros ((Ha & Hg & _) & Hb1 & Hb2) (He & Hr).
  unfold controls_only_ringing, ringing. rewrite Hb1, Hb2, Ha, Hg. split; assumption.
Qed.

Lemma hidden_controls st :
  snooze_button st = false -> stop_button st = false -> controls_only_ringing st.
Proof.
  intros H1 H2. split; [congruence |]. intros H. congruence.
Qed.

Lemma step_controls st op :
  controls_only_ringing st -> controls_only_ringing (step st op).
Proof.
  intros Hinv. destruct op as [entry now1 now2 | now | now | | fe pe]; simpl.
  - destruct (set_alarm_outcome entry now1 now2 st)
      as [H | (parsed & t & _ & _ & _ & H1 & H2 & _)].
    + now apply untouched_keeps_controls with st.
    + now apply hidden_controls.
  - destruct (check_alarm_cases now st) as [H | [(t & Ht & Hg & H) | (t & Ht & Hg & H)]];
      rewrite H.
    + exact Hinv.
    + split; [reflexivity |]. intros _. split; [eexists; reflexivity | reflexivity].
    + now apply hidden_controls.
  - destruct (add now (timedelta_of 0 0 snooze_minutes 0 0)) as [t |] eqn:Ha.
    + rewrite (snooze_state now st t Ha). now apply hidden_controls.
    + rewrite (snooze_overflow now st Ha). now apply hidden_controls.
  - now apply hidden_controls.
  - apply untouched_keeps_controls with st; [| exact Hinv].
    apply play_alarm_sound_untouched.
Qed.

(** X7. In every state reached from the initial one by [set_alarm], ticks,
    [snooze], [stop_alarm] and playback threads, the snooze and stop
    buttons are shown or hidden together, and they are shown only while the
    alarm is ringing. *)
Theorem controls_shown_only_while_ringing ops :
  snooze_button (run ops initial) = stop_button (run ops initial) /\
  (snooze_button (run ops initial) = true -> ringing (run ops initial)).
Proof.
  assert (H : forall st, controls_only_ringing st -> controls_only_ringing (run ops st)).
  { induction ops as [| op ops IH]; intros st Hinv; simpl.
    - exact Hinv.
    - apply IH. now apply step_controls. }
  apply (H initial). now apply hidden_controls.
Qed.

Lemma normalized_one_day : normalized (timedelta_of 1 0 0 0 0).
Proof. unfold normalized, timedelta_of; simpl. split; divmod. Qed.

Lemma step_target_valid st op :
  clock_valid op -> target_valid st -> target_valid (step st op).
Proof.
  intros Hc Hinv. destruct op as [entry now1 now2 | now | now | | fe pe]; simpl in *.
  - destruct (set_alarm_outcome entry now1 now2 st)
      as [((Ha & _) & _) | (parsed & t & Hp & Ht & _ & _ & _ & _ & Hres)].
    + unfold target_valid. rewrite Ha. exact Hinv.
    + intros t' Ht'. rewrite Ht in Ht'. injection Ht' as <-.
      destruct (strptime_valid entry parsed Hp) as [Hvt _].
      assert (Hvtoday : valid_datetime (combine (date_of now1) (time_of parsed))).
      { destruct Hc as [(Ho & _) _], Hvt as (Hh & Hm & Hs & Hu).
        unfold valid_datetime, combine, date_of; simpl. tauto. }
      destruct Hres as [-> | Hadd]; [exact Hvtoday |].
      apply (add_instant _ _ t Hvtoday normalized_one_day Hadd).
  - destruct (check_alarm_cases now st) as [H | [(t & Ht & Hg & H) | (t & Ht & Hg & H)]];
      rewrite H.
    + exact Hinv.
    + intros t' Ht'. injection Ht' as <-. now apply Hinv.
    + intros t' Ht'. discriminate.
  - destruct (add now (timedelta_of 0 0 snooze_minutes 0 0)) as [t |] eqn:Ha.
    + rewrite (snooze_state now st t Ha). intros t' Ht'. injection Ht' as <-.
      apply (add_instant now _ t Hc (normalized_minutes snooze_minutes) Ha).
    + rewrite (snooze_overflow now st Ha). exact Hinv.
  - intros t' Ht'. discriminate.
  - destruct (play_alarm_sound_untouched fe pe st) as ((Ha & _) & _).
    unfold target_valid. rewrite Ha. exact Hinv.
Qed.

(** X8. When every clock reading is a well-formed datetime, the target is
    always a well-formed datetime too (date within the calendar, hour below
    24, minute and second below 60), whatever the user does. *)
Theorem target_always_valid ops t :
  Forall clock_valid ops ->
  alarm_time (run ops initial) = Some t ->
  valid_datetime t.
Proof.
  intros Hall.
  assert (H : forall st, target_valid st -> target_valid (run ops st)).
  { induction Hall as [| op ops Hc Hall IH]; intros st Hinv; simpl.
    - exact Hinv.
    - apply IH. now apply step_target_valid. }
  apply (H initial). intros t' Ht'. discriminate.
Qed.

Lemma target_always_valid_witness :
  let now := mkdatetime 739000 23 58 0 0 in
  let ops := [SetAlarm "7:5:9" now now; Snooze now] in
  alarm_time (run ops initial) = Some (mkdatetime 739001 0 3 0 0) /\
  valid_datetime (mkdatetime 739001 0 3 0 0).
Proof.
  intros now ops. split; [reflexivity |].
  apply (target_always_valid ops (mkdatetime 739001 0 3 0 0)); [| reflexivity].
  assert (Hv : valid_datetime now) by (unfold valid_datetime, MAXORDINAL; simpl; lia).
  apply Forall_cons; [split; exact Hv |].
  apply Forall_cons; [exact Hv | apply Forall_nil].
Defined.

(** *** The window *)

Lemma check_alarm_returns now st : fst (check_alarm now st) = inr tt.
Proof.
  destruct st as [[t |] g th sl sb stb dl sr]; unfold check_alarm; handler_unfold;
    cbn [alarm_time alarm_triggered fst]; [| reflexivity].
  destruct g; cbn [negb andb].
  - destruct (hour now =? hour t); cbn [andb]; [| reflexivity].
    destruct (minute t <? minute now); reflexivity.
  - destruct (hour now =? hour t); cbn [andb]; [| reflexivity].
    destruct (minute now =? minute t); [| reflexivity].
    destruct (ge now t); reflexivity.
Qed.

Lemma update_time_state current_time now w :
  update_time current_time now w
  = mkWindow (exec (check_alarm now) (app w)) current_time (alarm_entry w)
             (S (after_pending w)).
Proof.
  unfold update_time, exec.
  pose proof (check_alarm_returns now (app w)) as H.
  destruct (check_alarm now (app w)) as [[e | []] st']; simpl in *.
  - discriminate.
  - reflexivity.
Qed.

(** The alarm state of the next window is a step of the alarm state. *)
Lemma handle_app w ev :
  app (handle w ev) = app w \/ exists op, app (handle w ev) = step (app w) op.
Proof.
  destruct ev as [ct now | | | text | now1 now2 | now | | fe pe]; simpl.
  - right. exists (Tick now). rewrite update_time_state. reflexivity.
  - left. reflexivity.
  - left. reflexivity.
  - left. reflexivity.
  - right. exists (SetAlarm (alarm_entry w) now1 now2). reflexivity.
  - right. exists (Snooze now). reflexivity.
  - right. exists Stop. reflexivity.
  - right. exists (Sound fe pe). reflexivity.
Qed.

Lemma reachable_controls w : Reachable w -> controls_only_ringing (app w).
Proof.
  induction 1 as [ct now | w ev Hr IH He].
  - unfold startup. rewrite update_time_state. simpl.
    apply (step_controls initial (Tick now)). now apply hidden_controls.
  - destruct (handle_app w ev) as [E | [op E]]; rewrite E.
    + exact IH.
    + now apply step_controls.
Qed.

(** X9. In every window the event loop can reach, exactly one
    [update_time] callback is pending: [check_alarm] never raises, so each
    run of [update_time] schedules the next one, and nothing else schedules
    or cancels one. *)
Theorem clock_loop_always_scheduled w :
  Reachable w -> after_pending w = 1%nat.
Proof.
  induction 1 as [ct now | w ev Hr IH He].
  - unfold startup. rewrite update_time_state. reflexivity.
  - destruct ev as [ct now | | | text | now1 now2 | now | | fe pe]; simpl;
      try exact IH.
    rewrite update_time_state. simpl. rewrite IH. reflexivity.
Qed.

Lemma clock_loop_always_scheduled_witness :
  let now := mkdatetime 739000 14 29 59 0 in
  let w := handle (handle (handle (startup "14:29:59 PM" now) (EvEdit "14:30:00"))
                          (EvSetAlarm now now))
                  (EvTimer "14:30:00 PM" (mkdatetime 739000 14 30 0 0)) in
  after_pending w = 1%nat.
Proof.
  intros now w.
  apply (clock_loop_always_scheduled w).
  apply reach_event; [apply reach_event; [apply reach_event; [apply reach_startup |] |] |].
  - exact I.
  - exact I.
  - simpl. apply Nat.lt_0_1.
Defined.

(** X10. In a reachable window the Snooze or Stop button can be pressed
    only while the alarm is ringing: whenever either click is enabled,
    [alarm_time] is set and [alarm_triggered] is true. *)
Theorem buttons_pressed_only_while_ringing w now :
  Reachable w ->
  enabled w (EvSnooze now) \/ enabled w EvStop ->
  ringing (app w).
Proof.
  intros Hr He. destruct (reachable_controls w Hr) as [Heq Hring].
  apply Hring. simpl in He. destruct He as [H | H]; congruence.
Qed.

Lemma buttons_pressed_only_while_ringing_witness :
  let now := mkdatetime 739000 14 29 59 0 in
  let w := handle (handle (handle (startup "14:29:59 PM" now) (EvEdit "14:30:00"))
                          (EvSetAlarm now now))
                  (EvTimer "14:30:00 PM" (mkdatetime 739000 14 30 0 0)) in
  enabled w (EvSnooze now) /\ ringing (app w).
Proof.
  intros now w.
  assert (He : enabled w (EvSnooze now)) by reflexivity.
  split; [exact He |].
  apply (buttons_pressed_only_while_ringing w now); [| left; exact He].
  apply reach_event; [apply reach_event; [apply reach_event; [apply reach_startup |] |] |].
  - exact I.
  - exact I.
  - simpl. apply Nat.lt_0_1.
Defined.

(** X11. The focus bindings of the entry: leaving the field never leaves
    it empty, entering it never leaves the placeholder in it, and entering
    then leaving gives back any non-empty text unchanged (the placeholder
    included) and the placeholder for an empty field. *)
Theorem focus_bindings_round_trip text :
  on_focus_out text <> "" /\
  on_focus_in text <> placeholder /\
  on_focus_out (on_focus_in text) = (if String.eqb text "" then placeholder else text) /\
  on_focus_in (on_focus_out text)
  = (if String.eqb text placeholder then "" else text).
Proof.
  unfold on_focus_out, on_focus_in, entry_delete_all, entry_insert_front.
  destruct (String.eqb_spec text "") as [-> | Hne].
  - repeat split; discriminate.
  - destruct (String.eqb_spec text placeholder) as [-> | Hnp].
    + repeat split; discriminate.
    + repeat split; try assumption;
        repeat match goal with
               | |- context [String.eqb ?a ?b] => destruct (String.eqb_spec a b)
               end;
        congruence.
Qed.

Lemma untouched_inv w :
  Untouched w ->
  (alarm_entry w = placeholder \/ alarm_entry w = "") /\
  idle (app w) /\ controls_hidden (app w) /\ started (app w) = [].
Proof.
  induction 1 as [ct now | w ev Hu IH He Hne].
  - unfold startup. rewrite update_time_state. simpl.
    rewrite (check_alarm_idle now initial eq_refl).
    repeat split. left. reflexivity.
  - destruct IH as (Hentry & (Hat & Hg) & (Hb1 & Hb2) & Hs).
    unfold placeholder in *.
    destruct ev as [ct now | | | text | now1 now2 | now | | fe pe];
      cbn [handle with_app with_entry app alarm_entry enabled is_edit] in *.
    + rewrite update_time_state. cbn [app alarm_entry].
      rewrite (check_alarm_idle now (app w) Hat).
      repeat split; assumption.
    + split; [| repeat split; assumption].
      destruct Hentry as [-> | ->]; right; reflexivity.
    + split; [| repeat split; assumption].
      destruct Hentry as [-> | ->]; left; reflexivity.
    + discriminate.
    + split; [exact Hentry |].
      destruct Hentry as [E | E]; rewrite E.
      * rewrite (set_alarm_placeholder _ now1 now2 (app w) eq_refl).
        repeat split; assumption.
      * rewrite (set_alarm_malformed "" now1 now2 (app w)); [| discriminate | reflexivity].
        repeat split; assumption.
    + congruence.
    + congruence.
    + split; [exact Hentry |].
      destruct (play_alarm_sound_untouched fe pe (app w))
        as ((Ha & Hg' & Hs') & Hb1' & Hb2').
      unfold idle, controls_hidden. rewrite Ha, Hg', Hs', Hb1', Hb2'.
      repeat split; assumption.
Qed.

(** X12. As long as the user never edits the entry, whatever else happens
    (focus changes, clicks on Set Alarm, ticks), the entry holds the
    placeholder or nothing, no alarm is ever armed, the snooze and stop
    buttons stay hidden and no playback is started: the placeholder is
    never taken for a time. *)
Theorem untouched_entry_never_arms w :
  Untouched w ->
  (alarm_entry w = placeholder \/ alarm_entry w = "") /\
  alarm_time (app w) = None /\
  alarm_triggered (app w) = false /\
  snooze_button (app w) = false /\ stop_button (app w) = false /\
  started (app w) = [].
Proof.
  intros Hu. destruct (untouched_inv w Hu) as (He & (Ha & Hg) & (Hb1 & Hb2) & Hs).
  repeat split; assumption.
Qed.

Lemma untouched_entry_never_arms_witness :
  let now := mkdatetime 739000 14 29 59 0 in
  let w := handle (handle (handle (startup "14:29:59 PM" now) EvFocusIn)
                          (EvSetAlarm now now))
                  (EvTimer "14:30:00 PM" (mkdatetime 739000 14 30 0 0)) in
  alarm_entry w = "" /\ alarm_time (app w) = None /\
  dialogs (app w)
  = [("Input Error", "Invalid time format! Please use HH:MM:SS (e.g., 14:30:00).")].
Proof.
  intros now w.
  assert (Hu : Untouched w).
  { apply untouched_event;
      [apply untouched_event; [apply untouched_event; [apply untouched_startup | |] | |] | |];
      try reflexivity; try exact I.
    simpl. apply Nat.lt_0_1. }
  pose proof (untouched_entry_never_arms w Hu) as (_ & Ha & _).
  split; [reflexivity |]. split; [exact Ha | reflexivity].
Defined.

(** *** The end of the calendar *)

(** X13. [snooze] within the last [snooze_minutes] minutes of the
    calendar: the addition overflows after the buttons were hidden, so the
    call raises, the controls are gone, and [alarm_time],
    [alarm_triggered] and the status text are what they were. *)
Theorem snooze_at_end_of_calendar now st :
  valid_datetime now ->
  end_of_calendar <= instant now + snooze_minutes * one_minute ->
  let st' := exec (snooze now) st in
  returns (snooze now) st = false /\
  alarm_time st' = alarm_time st /\
  alarm_triggered st' = alarm_triggered st /\
  status_label st' = status_label st /\
  controls_hidden st'.
Proof.
  intros Hv Hb st'. subst st'.
  assert (Ha : add now (timedelta_of 0 0 snooze_minutes 0 0) = None).
  { apply add_overflow; [exact Hv | apply normalized_minutes | vm_compute; discriminate |].
    rewrite span_snooze. exact Hb. }
  rewrite (snooze_overflow now st Ha).
  split.
  - unfold returns, snooze. handler_unfold. rewrite Ha. reflexivity.
  - repeat split.
Qed.

Lemma snooze_at_end_of_calendar_witness :
  let now := mkdatetime MAXORDINAL 23 55 0 0 in
  let st := fired now (mkState (Some now) false None "" false false [] []) in
  returns (snooze now) st = false /\
  alarm_time (exec (snooze now) st) = alarm_time st /\
  alarm_triggered (exec (snooze now) st) = alarm_triggered st /\
  status_label (exec (snooze now) st) = status_label st /\
  controls_hidden (exec (snooze now) st).
Proof.
  intros now st.
  apply (snooze_at_end_of_calendar now st).
  - unfold valid_datetime; simpl; unfold MAXORDINAL; lia.
  - vm_compute. discriminate.
Defined.

(** X14. [set_alarm] on the last day of the calendar with an accepted time
    that is not after the clock: adding a day overflows, the generic
    handler shows an "Error" dialog with the exception text and writes it
    to the status label, and the alarm and the controls stay as they
    were. *)
Theorem set_alarm_on_last_day entry now1 now2 parsed st :
  valid_datetime now1 ->
  ordinal now1 = MAXORDINAL ->
  Strptime.strptime entry = Some parsed ->
  cmp (combine (date_of now1) (time_of parsed)) now2 <> Gt ->
  let st' := exec (set_alarm entry now1 now2) st in
  dialogs st'
  = ("Error", "An unexpected error occurred: date value out of range") :: dialogs st /\
  status_label st' = "Error setting alarm: date value out of range" /\
  untouched_alarm st st'.
Proof.
  intros Hv Hlast Hp Hc st'. subst st'.
  destruct (strptime_valid entry parsed Hp) as [Hvt _].
  assert (Hle : le (combine (date_of now1) (time_of parsed)) now2 = true).
  { unfold le. destruct (cmp _ now2); congruence. }
  assert (Ha : add (combine (date_of now1) (time_of parsed)) (timedelta_of 1 0 0 0 0) = None).
  { apply add_overflow.
    - destruct Hv as (Ho & _), Hvt as (Hh & Hm & Hs & Hu).
      unfold valid_datetime, combine, date_of; simpl. tauto.
    - apply normalized_one_day.
    - vm_compute. discriminate.
    - destruct Hvt as (Hh & Hm & Hs & Hu).
      change (span (timedelta_of 1 0 0 0 0)) with one_day.
      unfold end_of_calendar, one_day, instant, combine, date_of, time_of in *;
        simpl in *. rewrite Hlast. unfold MAXORDINAL. lia. }
  rewrite (set_alarm_overflow_state entry now1 now2 st parsed Hp Hle Ha).
  repeat split.
Qed.

Lemma set_alarm_on_last_day_witness :
  let now := mkdatetime MAXORDINAL 9 0 0 0 in
  let st := mkState (Some (mkdatetime MAXORDINAL 14 30 0 0)) false None
                    "Alarm set for today at 14:30:00" false false [] [] in
  dialogs (exec (set_alarm "08:00:00" now now) st)
  = [("Error", "An unexpected error occurred: date value out of range")] /\
  status_label (exec (set_alarm "08:00:00" now now) st)
  = "Error setting alarm: date value out of range" /\
  untouched_alarm st (exec (set_alarm "08:00:00" now now) st).
Proof.
  intros now st.
  apply (set_alarm_on_last_day "08:00:00" now now (mkdatetime 693596 8 0 0 0) st).
  - unfold valid_datetime; simpl; unfold MAXORDINAL; lia.
  - reflexivity.
  - reflexivity.
  - discriminate.
Defined.

(** *** What [set_alarm] shows and what it refuses *)

(** X15. When [set_alarm] accepts an entry (clock not on the last day of
    the calendar), from any state, ringing included: the result is armed,
    both controls are hidden, no dialog is shown, no thread is started,
    and the status label reads "Alarm set for today at" or "Alarm set for
    tomorrow at" followed by the entered time as [strftime] prints it. *)
Theorem set_alarm_accepts_and_reports entry now1 now2 parsed st :
  valid_datetime now1 -> ordinal now1 < MAXORDINAL ->
  Strptime.strptime entry = Some parsed ->
  let st' := exec (set_alarm entry now1 now2) st in
  armed st' /\ controls_hidden st' /\
  dialogs st' = dialogs st /\ started st' = started st /\
  (status_label st' = "Alarm set for today at " ++ strftime_HMS parsed \/
   status_label st' = "Alarm set for tomorrow at " ++ strftime_HMS parsed).
Proof.
  intros Hv Hmax Hp st'. subst st'.
  destruct (strptime_valid entry parsed Hp) as [Hvt _].
  destruct (le (combine (date_of now1) (time_of parsed)) now2) eqn:Hle.
  - assert (Ha : add (combine (date_of now1) (time_of parsed)) (timedelta_of 1 0 0 0 0)
                 = Some (combine (mkdate (toordinal (date_of now1) + 1)) (time_of parsed))).
    { apply add_one_day; [destruct Hv as (Ho & _); simpl; lia | simpl; lia | exact Hvt]. }
    rewrite (set_alarm_tomorrow entry now1 now2 st parsed _ Hp Hle Ha).
    split; [split; [eexists; reflexivity | reflexivity] |].
    split; [split; reflexivity |].
    split; [reflexivity |]. split; [reflexivity |].
    right. reflexivity.
  - rewrite (set_alarm_today entry now1 now2 st parsed Hp Hle).
    split; [split; [eexists; reflexivity | reflexivity] |].
    split; [split; reflexivity |].
    split; [reflexivity |]. split; [reflexivity |].
    left. reflexivity.
Qed.

Lemma set_alarm_accepts_and_reports_witness :
  let now := mkdatetime 739000 9 0 0 0 in
  let st := fired now (mkState (Some now) false None "" false false [] []) in
  armed (exec (set_alarm "7:5:9" now now) st) /\
  controls_hidden (exec (set_alarm "7:5:9" now now) st) /\
  status_label (exec (set_alarm "7:5:9" now now) st) = "Alarm set for tomorrow at 07:05:09".
Proof.
  intros now st.
  pose proof (set_alarm_accepts_and_reports "7:5:9" now now (mkdatetime 693596 7 5 9 0) st)
    as H.
  destruct H as (Ha & Hc & _).
  - unfold valid_datetime, MAXORDINAL; simpl; lia.
  - unfold MAXORDINAL; simpl; lia.
  - reflexivity.
  - split; [exact Ha |]. split; [exact Hc | reflexivity].
Defined.

(** A match consumes between [minlen] and [maxlen] characters and passes
    what is left to the continuation. *)
Lemma rmatch_consumes r : forall (A : Type) s cs (k : string -> Strptime.caps -> option A) x,
  Strptime.rmatch r s cs k = Some x ->
  exists s1 cs1 n,
    k s1 cs1 = Some x /\
    String.length s = (n + String.length s1)%nat /\
    (minlen r <= n <= maxlen r)%nat.
Proof.
  induction r as [c | lo hi | r1 IH1 r2 IH2 | r1 IH1 r2 IH2 | name r1 IH1];
    intros A s cs k x H; cbn [Strptime.rmatch] in H.
  - destruct s as [| c' s']; [discriminate |].
    destruct (Ascii.eqb c c'); [| discriminate].
    exists s', cs, 1%nat. simpl. repeat split; try assumption; lia.
  - destruct s as [| c' s']; [discriminate |].
    destruct (Strptime.in_range lo hi c'); [| discriminate].
    exists s', cs, 1%nat. simpl. repeat split; try assumption; lia.
  - apply IH1 in H. destruct H as (s1 & cs1 & n1 & H & Hl1 & Hb1).
    apply IH2 in H. destruct H as (s2 & cs2 & n2 & H & Hl2 & Hb2).
    exists s2, cs2, (n1 + n2)%nat. cbn [minlen maxlen].
    repeat split; try assumption; lia.
  - destruct (Strptime.rmatch r1 s cs k) as [y |] eqn:H1.
    + injection H as ->. apply IH1 in H1.
      destruct H1 as (s1 & cs1 & n1 & H & Hl1 & Hb1).
      exists s1, cs1, n1. cbn [minlen maxlen]. repeat split; try assumption; lia.
    + apply IH2 in H. destruct H as (s1 & cs1 & n1 & H & Hl1 & Hb1).
      exists s1, cs1, n1. cbn [minlen maxlen]. repeat split; try assumption; lia.
  - apply IH1 in H. destruct H as (s1 & cs1 & n1 & H & Hl1 & Hb1).
    exists s1, (((name, substring 0 (Strptime.prefix_len s s1) s)) :: cs1), n1.
    cbn [minlen maxlen]. repeat split; try assumption; lia.
Qed.

Lemma strptime_length s d :
  Strptime.strptime s = Some d -> (5 <= String.length s <= 8)%nat.
Proof.
  unfold Strptime.strptime.
  destruct (Strptime.rmatch _ _ _ _) as [[rest cs] |] eqn:Hm; [| discriminate].
  destruct (String.eqb_spec rest "") as [-> | _]; [| discriminate].
  intros _. apply rmatch_consumes in Hm.
  destruct Hm as (s1 & cs1 & n & Hk & Hl & Hb).
  injection Hk as -> _. simpl in Hl, Hb. lia.
Qed.

(** X16. [set_alarm] refuses every entry shorter than five or longer than
    eight characters (for instance one with trailing blanks or fractions
    of a second): it shows an "Input Error" dialog and leaves
    [alarm_time], [alarm_triggered], the controls and the thread history
    as they were. *)
Theorem set_alarm_refuses_by_length entry now1 now2 st :
  (String.length entry < 5)%nat \/ (8 < String.length entry)%nat ->
  let st' := exec (set_alarm entry now1 now2) st in
  (exists message, dialogs st' = ("Input Error", message) :: dialogs st) /\
  untouched_alarm st st'.
Proof.
  intros Hlen st'. subst st'.
  destruct (string_dec entry "HH:MM:SS") as [E | E].
  { rewrite (set_alarm_placeholder entry now1 now2 st E).
    split; [eexists; reflexivity | repeat split]. }
  destruct (Strptime.strptime entry) as [d |] eqn:Hp.
  { apply strptime_length in Hp. lia. }
  rewrite (set_alarm_malformed entry now1 now2 st E Hp).
  split; [eexists; reflexivity | repeat split].
Qed.

Lemma set_alarm_refuses_by_length_witness :
  let now := mkdatetime 739000 9 0 0 0 in
  let st := mkState (Some (mkdatetime 739000 14 30 0 0)) false None
                    "Alarm set for today at 14:30:00" false false [] [] in
  untouched_alarm st (exec (set_alarm "14:30:00.5" now now) st) /\
  untouched_alarm st (exec (set_alarm "7:30" now now) st).
Proof.
  intros now st. split.
  - apply (set_alarm_refuses_by_length "14:30:00.5" now now st).
    right. simpl. lia.
  - apply (set_alarm_refuses_by_length "7:30" now now st).
    left. simpl. lia.
Defined.
